(** * SmartLoan: eligibility decision and offer ranking (app.py)

    A shallow embedding of the numeric core of [app.py]: the EMI formula,
    the rules-based fallback model, the risk scorer, the per-lender offer
    loop with its ranking, the explanation rules and the validation chain
    of the [dashboard] view.

    Number model.  Python [int] values are [Z].  Python [float] values are
    read in two ways.

    - The exact reading, in which the engine as a whole is written: a
      [float] is a rational [Q], every arithmetic operation is the exact
      one and two numbers are equal when they are equal as rationals
      ([==]).  It describes the program on finite numbers up to the
      rounding of binary64; NaN, the infinities and the [OverflowError] of
      [**] do not exist in it.  Division by zero raises
      [ZeroDivisionError], as Python's [/] does on both [int] and [float].

    - The binary64 reading, module [Binary64]: Rocq's primitive binary64
      numbers, with NaN, the infinities and rounding.  It restates the
      statements of the program whose outcome on such values is not the
      one of the exact reading: EMI, the fallback model, the FOIR test of
      the offer loop and the head of the evaluation in [dashboard].

    Where NaN, an infinity or rounding changes what the program does, the
    binary64 reading states it. *)

From Stdlib Require Import ZArith QArith Qround Qpower Lqa Lia Bool Sorted.
From Stdlib Require Import Floats.
From stdpp Require Import base option list strings gmap.

Local Open Scope Q_scope.
#[local] Set Warnings "-inexact-float".

(** ** Exceptions and the result of a computation that may raise *)

Inductive exn : Type :=
  | ZeroDivisionError
  | KeyError (key : string)
  | OverflowError
  | ValueError.

Inductive result (A : Type) : Type :=
  | Ok (a : A)
  | Raise (e : exn).
Arguments Ok {A} a.
Arguments Raise {A} e.

Definition bind {A B : Type} (c : result A) (k : A -> result B) : result B :=
  match c with
  | Ok a => k a
  | Raise e => Raise e
  end.

Notation "'let*' x := c 'in' k" := (bind c (fun x => k))
  (at level 10, x name, c at level 100, k at level 200).

(** ** Python's numeric primitives on rationals *)

Definition Qltb (a b : Q) : bool := negb (Qle_bool b a).

(** [a / b] *)
Definition py_div (a b : Q) : result Q :=
  if Qeq_bool b 0 then Raise ZeroDivisionError else Ok (a / b).

(** [base ** n] for an integer exponent; zero to a negative power raises.
    On rationals the power has no upper limit: the [OverflowError] of a
    binary64 power is in the binary64 reading. *)
Definition py_pow (base : Q) (n : Z) : result Q :=
  if Qeq_bool base 0 && (n <? 0)%Z then Raise ZeroDivisionError
  else Ok (base ^ n).

(** [max(a, b)] and [min(a, b)]: the first argument unless the second is
    strictly greater (smaller). *)
Definition py_max (a b : Q) : Q := if Qltb a b then b else a.
Definition py_min (a b : Q) : Q := if Qltb b a then b else a.

(** [round(x)]: nearest integer, ties to the even one. *)
Definition py_round (x : Q) : Z :=
  let f := Qfloor x in
  let d := x - inject_Z f in
  if Qltb d (1#2) then f
  else if Qltb (1#2) d then (f + 1)%Z
  else if Z.even f then f else (f + 1)%Z.

(** [round(x, ndigits)] for [ndigits >= 0]. *)
Definition py_round_n (x : Q) (ndigits : nat) : Q :=
  let scale := inject_Z (10 ^ Z.of_nat ndigits) in
  inject_Z (py_round (x * scale)) / scale.

(** [int(x)]: truncation towards zero. *)
Definition py_int (x : Q) : Z := Z.quot (Qnum x) (Z.pos (Qden x)).

(** ** EMI calculator *)

Definition emi (principal annual_rate : Q) (months : Z) : result Q :=
  let monthly_rate := annual_rate / 12 / 100 in
  if Qeq_bool monthly_rate 0 then
    py_div principal (inject_Z months)
  else
    let* factor := py_pow (1 + monthly_rate) months in
    py_div (principal * monthly_rate * factor) (factor - 1).

(** ** Records for the dictionaries of the program

    Every dictionary of [app.py] has a fixed set of string keys; each is a
    record whose fields carry the keys' names. *)

Module Bank.
Record t : Type := mk {
  name : string;
  base_rate : Q;
  min_credit : Z;
  max_foir : Q;
  processing_fee : Q }.
End Bank.

(** The [profile] dictionary built by [dashboard].  The key
    [generated_at] (a formatted clock reading no function of the engine
    reads) is left out. *)
Module Profile.
Record t : Type := mk {
  full_name : string;
  age : Z;
  employment : string;
  monthly_income : Q;
  monthly_expenses : Q;
  existing_emi : Q;
  credit_score : Z;
  loan_amount : Q;
  tenure_months : Z;
  loan_type : string;
  disposable_income : Q;
  foir : Q;
  stability : Q }.
End Profile.

Module Offer.
Record t : Type := mk {
  bank : string;
  rate : Q;
  emi : Z;
  total_payable : Z;
  processing_fee : Q;
  approval : Z;
  foir : Q;
  tag : string }.
End Offer.

(** ** The lender catalog and the employment table *)

Definition BANKS : gmap string (list Bank.t) :=
  list_to_map [
    ("Home"%string, [
       Bank.mk "SBI" 8.35 680 0.55 0.6;
       Bank.mk "HDFC" 8.55 710 0.52 0.75;
       Bank.mk "Axis" 8.72 695 0.54 0.7;
       Bank.mk "ICICI" 8.68 700 0.53 0.8 ]);
    ("Education"%string, [
       Bank.mk "SBI" 8.95 650 0.58 0.5;
       Bank.mk "Bank of Baroda" 9.1 640 0.59 0.4;
       Bank.mk "Axis" 9.25 655 0.57 0.65 ]);
    ("Personal"%string, [
       Bank.mk "HDFC" 11.2 730 0.48 1.3;
       Bank.mk "ICICI" 11.45 725 0.5 1.1;
       Bank.mk "Axis" 11.8 710 0.5 1.2 ]);
    ("Business"%string, [
       Bank.mk "HDFC" 10.45 700 0.55 1.0;
       Bank.mk "ICICI" 10.8 695 0.56 1.1;
       Bank.mk "Kotak" 10.95 690 0.57 0.95 ]) ].

Definition EMPLOYMENT_STABILITY : gmap string Q :=
  list_to_map [
    ("salaried"%string, 1.0);
    ("self_employed"%string, 0.85);
    ("freelancer"%string, 0.75) ].

(** ** Eligibility predictor

    A model maps the feature row [monthly_income, loan_amount,
    credit_score] (a row of floats) to a decision and to the pair of class
    probabilities.  [load_model] returns the unpickled artifact when
    [model.pkl] exists and a [FallbackModel] otherwise. *)

Record Model : Type := {
  predict : Q * Q * Q -> Z;
  predict_proba : Q * Q * Q -> Q * Q }.

Module FallbackModel.
Definition predict (X : Q * Q * Q) : Z :=
  let '(monthly_income, loan_amount, credit_score) := X in
  let income_gate := Qle_bool (loan_amount / 120) monthly_income in
  let credit_gate := Qle_bool 650 credit_score in
  if income_gate && credit_gate then 1%Z else 0%Z.

Definition predict_proba (X : Q * Q * Q) : Q * Q :=
  let '(monthly_income, loan_amount, credit_score) := X in
  let score := 0.22 in
  let score := score + py_min (py_max ((credit_score - 500) / 360) 0) 0.53 in
  let score :=
    score + py_min (py_max ((monthly_income - loan_amount / 120) / 120000) 0) 0.2 in
  let approved := py_min (py_max score 0.05) 0.95 in
  (1 - approved, approved).

Definition model : Model :=
Build_Model predict predict_proba.
End FallbackModel.

(** ** Risk scorer

    The three [if]/[elif] chains of [profile_risk], one function each. *)

Definition risk_credit_delta (credit_score : Z) : Z :=
  if (760 <=? credit_score)%Z then -35
  else if (700 <=? credit_score)%Z then -22
  else if (650 <=? credit_score)%Z then -10
  else 0.

Definition risk_foir_delta (foir : Q) : Z :=
  if Qle_bool foir 0.35 then -25
  else if Qle_bool foir 0.45 then -15
  else if Qle_bool foir 0.55 then -5
  else 20.

Definition risk_stability_delta (stability : Q) : Z :=
  if Qle_bool 0.95 stability then -12
  else if Qltb stability 0.8 then 10
  else 0.

Definition profile_risk (credit_score : Z) (foir stability : Q) : string * Z :=
  let risk_score := 100%Z in
  let risk_score := (risk_score + risk_credit_delta credit_score)%Z in
  let risk_score := (risk_score + risk_foir_delta foir)%Z in
  let risk_score := (risk_score + risk_stability_delta stability)%Z in
  let risk_score := Z.max 5 (Z.min 95 risk_score) in
  if (risk_score <=? 35)%Z then ("Low"%string, risk_score)
  else if (risk_score <=? 60)%Z then ("Medium"%string, risk_score)
  else ("High"%string, risk_score).

(** ** Explanation generator *)

Definition explain_profile (data : Profile.t) (decision_confidence : Z)
    (risk_label : string) : list string * list string :=
  let reasons : list string := [] in
  let cautions : list string := [] in
  let '(reasons, cautions) :=
    if (740 <=? Profile.credit_score data)%Z then
      (reasons ++ ["Strong credit profile increases lender trust."%string], cautions)
    else if (Profile.credit_score data <? 670)%Z then
      (reasons,
       cautions ++ ["Credit score is below preferred range for premium offers."%string])
    else (reasons, cautions) in
  let '(reasons, cautions) :=
    if Qle_bool (Profile.foir data) 0.4 then
      (reasons ++ ["Healthy FOIR indicates manageable repayment capacity."%string],
       cautions)
    else if Qltb 0.55 (Profile.foir data) then
      (reasons, cautions ++ ["FOIR is high; lenders may reduce sanction amount."%string])
    else (reasons, cautions) in
  let reasons :=
    if Qle_bool (0.35 * Profile.monthly_income data) (Profile.disposable_income data)
    then reasons ++ ["Disposable income supports stable EMI servicing."%string]
    else reasons in
  let cautions :=
    if (decision_confidence <? 55)%Z then
      cautions ++ ["Eligibility confidence is moderate; terms may vary by lender."%string]
    else cautions in
  let cautions :=
    if String.eqb risk_label "High" && bool_decide (cautions = []) then
      cautions ++ ["Overall profile is sensitive to higher loan burden."%string]
    else cautions in
  (reasons, cautions).

(** ** Offer matching and ranking *)

Definition credit_adjustment (profile : Profile.t) : Q :=
  if (760 <=? Profile.credit_score profile)%Z then -0.35
  else if (720 <=? Profile.credit_score profile)%Z then -0.15
  else 0.2.

Definition foir_adjustment (profile : Profile.t) : Q :=
  if Qle_bool (Profile.foir profile) 0.4 then -0.1
  else if Qltb 0.5 (Profile.foir profile) then 0.25
  else 0.

Definition stability_adjustment (profile : Profile.t) : Q :=
  if Qle_bool 1 (Profile.stability profile) then -0.1
  else if Qltb (Profile.stability profile) 0.8 then 0.2
  else 0.

Definition effective_rate (profile : Profile.t) (bank : Bank.t) : Q :=
  py_round_n
    (py_max (Bank.base_rate bank + credit_adjustment profile
             + foir_adjustment profile + stability_adjustment profile) 7.75)
    2.

(** The body of the [for bank in ...] loop: [None] stands for [continue],
    [Some offer] for the dictionary passed to [offers.append]. *)
Definition bank_offer (profile : Profile.t) (confidence : Q) (bank : Bank.t)
    : result (option Offer.t) :=
  if (Profile.credit_score profile <? Bank.min_credit bank)%Z then Ok None
  else
    let base_rate := Bank.base_rate bank in
    let effective_rate := effective_rate profile bank in
    let* monthly_emi :=
      emi (Profile.loan_amount profile) effective_rate (Profile.tenure_months profile) in
    let combined_obligation := Profile.existing_emi profile + monthly_emi in
    let* actual_foir := py_div combined_obligation (Profile.monthly_income profile) in
    if Qltb (Bank.max_foir bank) actual_foir then Ok None
    else
      let payable := monthly_emi * inject_Z (Profile.tenure_months profile) in
      let processing := Profile.loan_amount profile * (Bank.processing_fee bank / 100) in
      let bank_fit := 100 in
      let bank_fit := bank_fit - (effective_rate - Bank.base_rate bank) * 10 in
      let bank_fit := bank_fit - py_max (actual_foir - 0.35) 0 * 120 in
      let bank_fit := bank_fit + (confidence - 50) * 0.2 in
      let bank_fit := py_int (py_max 35 (py_min 98 bank_fit)) in
      Ok (Some {|
        Offer.bank := Bank.name bank;
        Offer.rate := effective_rate;
        Offer.emi := py_round monthly_emi;
        Offer.total_payable := py_round (payable + processing);
        Offer.processing_fee := py_round_n (Bank.processing_fee bank) 2;
        Offer.approval := bank_fit;
        Offer.foir := py_round_n (actual_foir * 100) 1;
        Offer.tag :=
          if Qle_bool effective_rate base_rate then "Best Rate" else "Fast Approval" |}).

(** The loop itself, threading the list [offers] that [append] extends. *)
Fixpoint offers_loop (profile : Profile.t) (confidence : Q)
    (banks : list Bank.t) (offers : list Offer.t) : result (list Offer.t) :=
  match banks with
  | [] => Ok offers
  | bank :: banks =>
      let* item := bank_offer profile confidence bank in
      offers_loop profile confidence banks
        (match item with Some offer => offers ++ [offer] | None => offers end)
  end.

(** The sort key [(x["rate"], -x["approval"], x["emi"])] and the order of
    Python tuples: the first component that differs decides. *)
Definition sort_key (x : Offer.t) : Q * Z * Z :=
  (Offer.rate x, (- Offer.approval x)%Z, Offer.emi x).

Definition key_lt (a b : Q * Z * Z) : bool :=
  let '(r1, f1, e1) := a in
  let '(r2, f2, e2) := b in
  if negb (Qeq_bool r1 r2) then Qltb r1 r2
  else if negb (f1 =? f2)%Z then (f1 <? f2)%Z
  else (e1 <? e2)%Z.

(** [list.sort(key=...)] is a stable comparison sort that only asks
    whether one key is less than another; on fewer than 64 items it is
    an insertion sort.  Each item in turn is placed behind every item
    already placed whose key is not greater. *)
Fixpoint sort_insert (x : Offer.t) (sorted : list Offer.t) : list Offer.t :=
  match sorted with
  | [] => [x]
  | y :: rest =>
      if key_lt (sort_key x) (sort_key y) then x :: y :: rest
      else y :: sort_insert x rest
  end.

Fixpoint sort_into (sorted items : list Offer.t) : list Offer.t :=
  match items with
  | [] => sorted
  | x :: items => sort_into (sort_insert x sorted) items
  end.

Definition list_sort (items : list Offer.t) : list Offer.t := sort_into [] items.

Definition build_offers (profile : Profile.t) (prediction : Z) (confidence : Q)
    : result (list Offer.t) :=
  let offers : list Offer.t := [] in
  if negb (prediction =? 1)%Z then Ok offers
  else
    let* banks :=
      match BANKS !! Profile.loan_type profile with
      | Some banks => Ok banks
      | None => Raise (KeyError (Profile.loan_type profile))
      end in
    let* offers := offers_loop profile confidence banks offers in
    Ok (list_sort offers).

(** ** The [dashboard] view, POST branch

    The values read from the form once the ten conversions of the [try]
    block have succeeded; the session check and the conversions themselves
    are outside this model. *)
Module Form.
Record t : Type := mk {
  full_name : string;
  age : Z;
  employment : string;
  monthly_income : Q;
  monthly_expenses : Q;
  existing_emi : Q;
  credit_score : Z;
  loan_amount : Q;
  tenure_months : Z;
  loan_type : string }.
End Form.

(** The keyword arguments handed to the [result.html] template. *)
Module Decision.
Record t : Type := mk {
  status : string;
  confidence : Z;
  risk_label : string;
  risk_score : Z;
  profile : Profile.t;
  offers : list Offer.t;
  best_offer : option Offer.t;
  reasons : list string;
  cautions : list string }.
End Decision.

(** What a request ends in: [flash(message, "error")] followed by a
    redirect back to the form, the rendered result, or an exception that
    no handler of the view catches. *)
Inductive response : Type :=
  | Flash (message : string)
  | Render (decision : Decision.t)
  | Uncaught (e : exn).

(** The statements of the view that follow its validation chain, from
    [disposable_income] to the call of [render_template]; [stability] is
    the coefficient the view has looked up just before. *)
Definition evaluate (model : Model) (form : Form.t) (stability : Q)
    : result Decision.t :=
  let monthly_income := Form.monthly_income form in
  let monthly_expenses := Form.monthly_expenses form in
  let existing_emi := Form.existing_emi form in
  let credit_score := Form.credit_score form in
  let loan_amount := Form.loan_amount form in
  let tenure_months := Form.tenure_months form in
  let disposable_income := py_max (monthly_income - monthly_expenses - existing_emi) 0 in
  let* baseline_emi := emi loan_amount 10.0 tenure_months in
  let* foir := py_div (existing_emi + baseline_emi) monthly_income in
  let X := (monthly_income, loan_amount, inject_Z credit_score) in
  let prediction := predict model X in
  let confidence := py_round (snd (predict_proba model X) * 100) in
  let '(risk_label, risk_score) := profile_risk credit_score foir stability in
  let profile := {|
    Profile.full_name := Form.full_name form;
    Profile.age := Form.age form;
    Profile.employment := Form.employment form;
    Profile.monthly_income := monthly_income;
    Profile.monthly_expenses := monthly_expenses;
    Profile.existing_emi := existing_emi;
    Profile.credit_score := credit_score;
    Profile.loan_amount := loan_amount;
    Profile.tenure_months := tenure_months;
    Profile.loan_type := Form.loan_type form;
    Profile.disposable_income := disposable_income;
    Profile.foir := foir;
    Profile.stability := stability |} in
  let* offers := build_offers profile prediction (inject_Z confidence) in
  let status :=
    if (prediction =? 1)%Z && negb (bool_decide (offers = [])) then "APPROVED"%string
    else if (prediction =? 1)%Z then "CONDITIONAL"%string
    else "REJECTED"%string in
  let '(reasons, cautions) := explain_profile profile confidence risk_label in
  let best_offer := head offers in
  Ok (Decision.mk status confidence risk_label risk_score profile offers
        best_offer reasons cautions).

Definition dashboard (model : Model) (form : Form.t) : response :=
  if negb (bool_decide (is_Some (BANKS !! Form.loan_type form))) then
    Flash "Unsupported loan type selected."
  else if negb ((21 <=? Form.age form)%Z && (Form.age form <=? 65)%Z) then
    Flash "Age should be between 21 and 65 years."
  else if Qle_bool (Form.monthly_income form) 0
          || Qle_bool (Form.loan_amount form) 0
          || (Form.tenure_months form <? 12)%Z then
    Flash "Income, loan amount, and tenure should be valid positive values."
  else if Qltb (Form.monthly_expenses form) 0
          || Qltb (Form.existing_emi form) 0 then
    Flash "Expenses and existing EMI cannot be negative."
  else if negb ((300 <=? Form.credit_score form)%Z
                && (Form.credit_score form <=? 900)%Z) then
    Flash "Credit score must be between 300 and 900."
  else
    let stability := default 0.8 (EMPLOYMENT_STABILITY !! Form.employment form) in
    match evaluate model form stability with
    | Ok decision => Render decision
    | Raise e => Uncaught e
    end.

(** ** The binary64 view

    Python's [float] is IEEE 754 binary64, with infinities and NaN and
    with every result rounded.  This module restates on Rocq's primitive
    binary64 numbers, operation for operation, the parts of [app.py] whose
    outcome on those values differs from the exact reading above.  The
    power operator [**] is computed by the C library, so it is an argument
    [pow] of what depends on it. *)

Module Binary64.
Local Open Scope float_scope.

(** [a / b] *)
Definition py_div (a b : float) : result float :=
  if b =? 0 then Raise ZeroDivisionError else Ok (a / b).

(** [max(a, b)] and [min(a, b)]: the first argument unless the second is
    greater (smaller); a comparison with NaN is false. *)
Definition py_max (a b : float) : float := if a <? b then b else a.
Definition py_min (a b : float) : float := if b <? a then b else a.

(** The conversion of an [int] operand to [float]: the nearest binary64
    number, [OverflowError] beyond the range. *)
Definition float_of_int (z : Z) : result float :=
  let x := SF2Prim (binary_normalize prec emax z 0 false) in
  if is_infinity x then Raise OverflowError else Ok x.

(** [int(round(x))]: [round] raises on NaN and on the infinities. *)
Definition py_round (x : float) : result Z :=
  match Prim2SF x with
  | S754_nan => Raise ValueError
  | S754_infinity _ => Raise OverflowError
  | S754_zero _ => Ok 0%Z
  | S754_finite s m e =>
      Ok (py_round (inject_Z (if s then Z.neg m else Z.pos m) * 2 ^ e)%Q)
  end.

Definition emi (pow : float -> Z -> result float)
    (principal annual_rate : float) (months : Z) : result float :=
  let monthly_rate := annual_rate / 12 / 100 in
  if monthly_rate =? 0 then
    let* months := float_of_int months in
    py_div principal months
  else
    let* factor := pow (1 + monthly_rate) months in
    py_div (principal * monthly_rate * factor) (factor - 1).

Definition predict (X : float * float * float) : Z :=
  let '(monthly_income, loan_amount, credit_score) := X in
  let income_gate := loan_amount / 120 <=? monthly_income in
  let credit_gate := 650 <=? credit_score in
  if income_gate && credit_gate then 1%Z else 0%Z.

Definition predict_proba (X : float * float * float) : float * float :=
  let '(monthly_income, loan_amount, credit_score) := X in
  let score := 0.22 in
  let score := score + py_min (py_max ((credit_score - 500) / 360) 0) 0.53 in
  let score :=
    score + py_min (py_max ((monthly_income - loan_amount / 120) / 120000) 0) 0.2 in
  let approved := py_min (py_max score 0.05) 0.95 in
  (1 - approved, approved).


Module Form.
Record t : Type := mk {
  full_name : string;
  age : Z;
  employment : string;
  monthly_income : float;
  monthly_expenses : float;
  existing_emi : float;
  credit_score : Z;
  loan_amount : float;
  tenure_months : Z;
  loan_type : string }.
End Form.

Definition EMPLOYMENT_STABILITY : gmap string float :=
  list_to_map [
    ("salaried"%string, 1.0);
    ("self_employed"%string, 0.85);
    ("freelancer"%string, 0.75) ].




End Binary64.

(** ** Vocabulary of the properties *)

(** The order the sort key induces on offers: [precedes a b] says that
    [a] may stand before [b], the reading of "rate ascending, then
    approval descending, then EMI ascending". *)
Definition precedes (a b : Offer.t) : Prop :=
  Offer.rate a < Offer.rate b
  \/ (Offer.rate a == Offer.rate b /\ (Offer.approval a > Offer.approval b)%Z)
  \/ (Offer.rate a == Offer.rate b /\ Offer.approval a = Offer.approval b
      /\ (Offer.emi a <= Offer.emi b)%Z).

(** Two offers tie when the three components of their keys are equal. *)
Definition same_key (a b : Offer.t) : bool :=
  Qeq_bool (Offer.rate a) (Offer.rate b)
  && (Offer.approval a =? Offer.approval b)%Z
  && (Offer.emi a =? Offer.emi b)%Z.

(** ** Sessions: [login_required], [login], [logout] and the guard of
    [dashboard]

    What the views take from outside the module: the password check of
    [werkzeug.security], the two hashes [generate_password_hash] returned
    when [USERS] was built, and the string methods [strip] and [lower]. *)
Record Library : Type := {
  check_password_hash : string -> string -> bool;
  admin_password_hash : string;
  analyst_password_hash : string;
  str_strip : string -> string;
  str_lower : string -> string }.

Module User.
Record t : Type := mk {
  password : string;
  name : string }.
End User.

Definition USERS (lib : Library) : gmap string User.t :=
  list_to_map [
    ("admin"%string, User.mk (admin_password_hash lib) "Platform Admin");
    ("analyst"%string, User.mk (analyst_password_hash lib) "Credit Analyst") ].

(** The keys the views themselves store in Flask's [session]. *)
Abbreviation Session := (gmap string string).

(** [request.method] and [request.form]. *)
Module Request.
Record t : Type := mk {
  method : string;
  form : gmap string string }.
End Request.

(** What a view returns: a redirect to an endpoint or a rendered
    template, here with the [user_name] the dashboard template is given. *)
Inductive page : Type :=
  | Redirect (endpoint : string)
  | Template (name : string)
  | DashboardPage (user_name : string).

Definition login_required (session : Session) : bool :=
  bool_decide (is_Some (session !! "username"%string)).

(** [login]: the session it leaves, the messages it flashes and the page
    it returns. *)
Definition login (lib : Library) (session : Session) (request : Request.t)
    : Session * list string * page :=
  if login_required session then (session, [], Redirect "dashboard")
  else if String.eqb (Request.method request) "POST" then
    let username :=
      str_lower lib
        (str_strip lib (default ""%string (Request.form request !! "username"%string))) in
    let password := default ""%string (Request.form request !! "password"%string) in
    match USERS lib !! username with
    | Some user =>
        if check_password_hash lib (User.password user) password then
          (<["name"%string := User.name user]>
             (<["username"%string := username]> session),
           [], Redirect "dashboard")
        else
          (session,
           ["Invalid credentials. Use admin/smartloan360 for demo access."%string],
           Template "login.html")
    | None =>
        (session,
         ["Invalid credentials. Use admin/smartloan360 for demo access."%string],
         Template "login.html")
    end
  else (session, [], Template "login.html").

Definition logout (session : Session) : Session * page :=
  (∅, Redirect "login").

(** The parts of [dashboard] around the evaluation: the session guard,
    and the page of a GET request.  A POST request is handed on, to the
    conversions of the form and then to the validation chain. *)
Inductive guarded : Type :=
  | Answer (p : page)
  | HandlePost.

Definition dashboard_guard (session : Session) (request : Request.t) : guarded :=
  if negb (login_required session) then Answer (Redirect "login")
  else if String.eqb (Request.method request) "POST" then HandlePost
  else Answer (DashboardPage (default "User"%string (session !! "name"%string))).

(** ** Further vocabulary *)


(** The conjunction of the five checks of the view's validation chain. *)
Definition valid_form (form : Form.t) : Prop :=
  is_Some (BANKS !! Form.loan_type form)
  /\ (21 <= Form.age form <= 65)%Z
  /\ 0 < Form.monthly_income form
  /\ 0 < Form.loan_amount form
  /\ (12 <= Form.tenure_months form)%Z
  /\ 0 <= Form.monthly_expenses form
  /\ 0 <= Form.existing_emi form
  /\ (300 <= Form.credit_score form <= 900)%Z.


(** ** Sample inputs

    The applicant of the specification's running example, asking for
    200000 over 12 months; the same applicant with the derived fields a
    dashboard run would add; a form with an income of zero; a form whose
    employment is not in the table; and a profile no evaluation could
    complete for, with a loan type outside the catalog. *)

Definition example_form : Form.t :=
  Form.mk "Applicant" 35 "salaried" 80000 20000 5000 780 200000 12 "Home".

Definition example_profile : Profile.t :=
  Profile.mk "Applicant" 35 "salaried" 80000 20000 5000 780 200000 12 "Home"
    55000 0.3 1.0.


Definition student_form : Form.t :=
  Form.mk "Applicant" 35 "student" 80000 20000 5000 780 200000 12 "Home".

Definition stray_profile : Profile.t :=
  Profile.mk "Applicant" 35 "salaried" 0 0 0 780 200000 12 "Gold" 0 0 1.0.

(** A stand-in for the library in examples: passwords are stored as
    they are and compared as strings, and user names are taken as typed. *)
Definition demo_library : Library := {|
  check_password_hash := String.eqb;
  admin_password_hash := "smartloan360";
  analyst_password_hash := "loanmarket123";
  str_strip := fun s => s;
  str_lower := fun s => s |}.

(** * Properties *)

(** ** Comparisons and the numeric primitives *)

Lemma Qltb_lt (a b : Q) : Qltb a b = true <-> a < b.
Proof.
  unfold Qltb. rewrite negb_true_iff.
  destruct (Qle_bool b a) eqn:E.
  - apply Qle_bool_iff in E. split; [discriminate | intros; lra].
  - split; [intros _ | reflexivity].
    destruct (Qlt_le_dec a b) as [Hlt | Hle]; [exact Hlt |].
    apply Qle_bool_iff in Hle. congruence.
Qed.

Lemma Qltb_ge (a b : Q) : Qltb a b = false <-> b <= a.
Proof.
  unfold Qltb. rewrite negb_false_iff. apply Qle_bool_iff.
Qed.

Lemma Qle_bool_gt (a b : Q) : Qle_bool a b = false <-> b < a.
Proof.
  rewrite <- Qltb_lt. unfold Qltb. rewrite negb_true_iff. reflexivity.
Qed.

Lemma Qeq_bool_false (a b : Q) : Qeq_bool a b = false <-> ~ a == b.
Proof.
  split.
  - intros E H. apply Qeq_bool_iff in H. congruence.
  - intros H. destruct (Qeq_bool a b) eqn:E; [| reflexivity].
    apply Qeq_bool_iff in E. contradiction.
Qed.

(** Case analysis on the first rational test in the goal, leaving the
    corresponding order fact in the context. *)
Ltac qcase :=
  match goal with
  | |- context [Qle_bool ?a ?b] =>
      let E := fresh "E" in
      destruct (Qle_bool a b) eqn:E;
      [apply Qle_bool_iff in E | apply Qle_bool_gt in E]
  | |- context [Qltb ?a ?b] =>
      let E := fresh "E" in
      destruct (Qltb a b) eqn:E;
      [apply Qltb_lt in E | apply Qltb_ge in E]
  | |- context [Qeq_bool ?a ?b] =>
      let E := fresh "E" in
      destruct (Qeq_bool a b) eqn:E;
      [apply Qeq_bool_iff in E | apply Qeq_bool_false in E]
  end.

Lemma py_max_spec (a b : Q) : a <= py_max a b /\ b <= py_max a b
  /\ (py_max a b = a \/ py_max a b = b).
Proof. unfold py_max. qcase; repeat split; auto; lra. Qed.


Lemma py_div_ok (a b : Q) : ~ b == 0 -> py_div a b = Ok (a / b).
Proof. intros H. unfold py_div. apply Qeq_bool_false in H. now rewrite H. Qed.


Lemma py_round_floor (x : Q) : (Qfloor x <= py_round x <= Qfloor x + 1)%Z.
Proof.
  unfold py_round. repeat qcase; try destruct (Z.even _); lia.
Qed.

Lemma monthly_rate_eq (annual_rate : Q) :
  annual_rate / 12 / 100 == annual_rate * (1 # 1200).
Proof. field. Qed.

(** * Binary64 values: NaN, infinities and rounding *)

(** ** Order on binary64 numbers *)

Section FloatOrder.
Local Open Scope float_scope.









End FloatOrder.

(** ** EMI *)



(** With a positive rate and at least one month the growth factor exceeds
    one, so the compound formula is defined. *)
Lemma emi_compound_branch (principal annual_rate : Q) (months : Z) :
  0 < annual_rate -> (1 <= months)%Z ->
  let monthly_rate := annual_rate / 12 / 100 in
  let factor := (1 + monthly_rate) ^ months in
  0 < monthly_rate /\ 1 < factor /\
  emi principal annual_rate months
  = Ok (principal * monthly_rate * factor / (factor - 1)).
Proof.
  intros Hr Hm monthly_rate factor.
  assert (Hmr : 0 < monthly_rate).
  { unfold monthly_rate. rewrite monthly_rate_eq. lra. }
  assert (Hf : 1 < factor).
  { unfold factor. apply Qpower_1_lt; [lra | lia]. }
  split; [exact Hmr |]. split; [exact Hf |].
  unfold emi. fold monthly_rate.
  assert (E1 : Qeq_bool monthly_rate 0 = false) by (apply Qeq_bool_false; lra).
  rewrite E1. unfold py_pow.
  assert (E2 : Qeq_bool (1 + monthly_rate) 0 = false) by (apply Qeq_bool_false; lra).
  rewrite E2. cbn [andb bind]. fold factor.
  apply py_div_ok. lra.
Qed.





(** ** Fallback model *)

(** C5. The fallback model answers 1 (approve) exactly when the income
    covers one hundred-and-twentieth of the loan amount and the credit
    score is at least 650; every other answer is 0. *)
Theorem fallback_predict_iff :
  forall monthly_income loan_amount credit_score : Q,
    (FallbackModel.predict (monthly_income, loan_amount, credit_score) = 1%Z
     <-> loan_amount / 120 <= monthly_income /\ 650 <= credit_score)
    /\ (FallbackModel.predict (monthly_income, loan_amount, credit_score) = 1%Z
        \/ FallbackModel.predict (monthly_income, loan_amount, credit_score) = 0%Z).
Proof.
  intros monthly_income loan_amount credit_score. unfold FallbackModel.predict.
  destruct (Qle_bool (loan_amount / 120) monthly_income) eqn:E1;
    destruct (Qle_bool 650 credit_score) eqn:E2; cbn [andb];
    (split; [| auto]).
  - apply Qle_bool_iff in E1, E2. tauto.
  - apply Qle_bool_gt in E2. split; [discriminate | intros [_ H]; lra].
  - apply Qle_bool_gt in E1. split; [discriminate | intros [H _]; lra].
  - apply Qle_bool_gt in E1. split; [discriminate | intros [H _]; lra].
Qed.




(** ** Risk scorer *)

(** C4, as the code has it.  A credit score of 650 and a FOIR of exactly
    0.55 take 10 and 5 points off the initial 100; whatever the stability
    coefficient in (0, 1], the score stays above 60 and the label is
    "High": 73 from stability 0.95 upwards, 95 below 0.8, 85 in between. *)
Theorem risk_boundary_650_055 (stability : Q) :
  0 < stability -> stability <= 1 ->
  profile_risk 650 0.55 stability
  = ("High"%string,
     if Qle_bool 0.95 stability then 73%Z
     else if Qltb stability 0.8 then 95%Z else 85%Z).
Proof.
  intros _ _. unfold profile_risk, risk_stability_delta.
  destruct (Qle_bool 0.95 stability); [reflexivity |].
  destruct (Qltb stability 0.8); reflexivity.
Qed.

Lemma risk_boundary_650_055_witness :
  profile_risk 650 0.55 0.85 = ("High"%string, 85%Z).
Proof.
  apply (risk_boundary_650_055 0.85); lra.
Defined.

(** C4, as the specification states it, fails: at stability 1 the label
    is "High" with score 73, so it is not "Medium" for every stability
    coefficient in (0, 1]. *)
Lemma risk_boundary_not_medium :
  profile_risk 650 0.55 1 = ("High"%string, 73%Z)
  /\ ~ (forall stability : Q, 0 < stability -> stability <= 1 ->
          fst (profile_risk 650 0.55 stability) = "Medium"%string).
Proof.
  split; [reflexivity |].
  intros H. specialize (H 1). discriminate H; lra.
Qed.

(** ** The offer loop *)

Section OfferLoop.
Variable profile : Profile.t.
Variable confidence : Q.

(** What passing both filters of the loop body means for a lender. *)
Lemma bank_offer_some (bank : Bank.t) (offer : Offer.t) :
  bank_offer profile confidence bank = Ok (Some offer) ->
  (Bank.min_credit bank <= Profile.credit_score profile)%Z
  /\ Offer.bank offer = Bank.name bank
  /\ Offer.rate offer = effective_rate profile bank
  /\ exists monthly_emi,
       emi (Profile.loan_amount profile) (effective_rate profile bank)
           (Profile.tenure_months profile) = Ok monthly_emi
       /\ ~ Profile.monthly_income profile == 0
       /\ (Profile.existing_emi profile + monthly_emi)
            / Profile.monthly_income profile <= Bank.max_foir bank
       /\ Offer.emi offer = py_round monthly_emi.
Proof.
  unfold bank_offer.
  destruct (Profile.credit_score profile <? Bank.min_credit bank)%Z eqn:Ecredit;
    [discriminate |].
  apply Z.ltb_ge in Ecredit.
  destruct (emi _ _ _) as [monthly_emi | e] eqn:Eemi; [| discriminate].
  cbn [bind]. unfold py_div.
  destruct (Qeq_bool (Profile.monthly_income profile) 0) eqn:Eincome;
    [discriminate |].
  apply Qeq_bool_false in Eincome. cbn [bind].
  destruct (Qltb (Bank.max_foir bank) _) eqn:Efoir; [discriminate |].
  apply Qltb_ge in Efoir.
  intros [= <-]. cbn.
  repeat split; try assumption.
  exists monthly_emi. repeat split; assumption.
Qed.

Lemma offers_loop_spec (banks : list Bank.t) (offers result : list Offer.t) :
  offers_loop profile confidence banks offers = Ok result ->
  exists items,
    Forall2 (fun bank item => bank_offer profile confidence bank = Ok item)
            banks items
    /\ result = offers ++ omap id items.
Proof.
  revert offers. induction banks as [| bank banks IH]; intros offers H.
  - injection H as <-. exists []. split; [constructor |].
    now rewrite app_nil_r.
  - cbn [offers_loop] in H.
    destruct (bank_offer profile confidence bank) as [item | e] eqn:Ebank;
      [| discriminate].
    cbn [bind] in H. apply IH in H as (items & Hitems & ->).
    exists (item :: items). split; [constructor; assumption |].
    destruct item as [offer |]; cbn [omap id]; [| reflexivity].
    now rewrite <- app_assoc.
Qed.

Lemma loop_items_elem (banks : list Bank.t) (items : list (option Offer.t))
    (offer : Offer.t) :
  Forall2 (fun bank item => bank_offer profile confidence bank = Ok item)
          banks items ->
  offer ∈ omap id items ->
  exists bank, bank ∈ banks /\ bank_offer profile confidence bank = Ok (Some offer).
Proof.
  intros Hitems Hin. apply list_elem_of_omap in Hin as (item & Hin & Hitem).
  cbn in Hitem. subst item.
  apply list_elem_of_lookup in Hin as [i Hi].
  destruct (Forall2_lookup_r _ _ _ _ _ Hitems Hi) as (bank & Hbank & Hoffer).
  exists bank. split; [| exact Hoffer].
  eapply list_elem_of_lookup_2, Hbank.
Qed.

(** The offers are appended in the order of the catalog, so their bank
    names form a sublist of the catalog's names. *)
Lemma loop_items_names (banks : list Bank.t) (items : list (option Offer.t)) :
  Forall2 (fun bank item => bank_offer profile confidence bank = Ok item)
          banks items ->
  sublist (Offer.bank <$> omap id items) (Bank.name <$> banks).
Proof.
  induction 1 as [| bank item banks items Hbank _ IH]; [constructor |].
  destruct item as [offer |]; cbn [omap id fmap list_fmap].
  - apply bank_offer_some in Hbank as (_ & Hname & _).
    change (sublist (Offer.bank offer :: (Offer.bank <$> omap id items))
                    (Bank.name bank :: (Bank.name <$> banks))).
    rewrite Hname. now constructor.
  - now constructor.
Qed.
End OfferLoop.

(** ** Ranking *)

Lemma key_lt_spec (a b : Offer.t) :
  key_lt (sort_key a) (sort_key b) = true
  <-> Offer.rate a < Offer.rate b
      \/ (Offer.rate a == Offer.rate b /\ (Offer.approval a > Offer.approval b)%Z)
      \/ (Offer.rate a == Offer.rate b /\ Offer.approval a = Offer.approval b
          /\ (Offer.emi a < Offer.emi b)%Z).
Proof.
  unfold key_lt, sort_key.
  destruct (Qeq_bool (Offer.rate a) (Offer.rate b)) eqn:Er; cbn [negb].
  - apply Qeq_bool_iff in Er.
    destruct (Z.eqb_spec (- Offer.approval a) (- Offer.approval b)) as [Ef | Ef];
      cbn [negb]; rewrite Z.ltb_lt; split; intros H.
    + right. right. repeat split; [assumption | lia | assumption].
    + destruct H as [H | [[_ H] | (_ & _ & H)]]; [lra | lia | assumption].
    + right. left. split; [assumption | lia].
    + destruct H as [H | [[_ H] | (_ & H & _)]]; [lra | lia | lia].
  - apply Qeq_bool_false in Er. rewrite Qltb_lt. split; intros H.
    + now left.
    + destruct H as [H | [[H _] | (H & _)]]; [assumption | contradiction ..].
Qed.

Lemma key_lt_false (a b : Offer.t) :
  key_lt (sort_key b) (sort_key a) = false <-> precedes a b.
Proof.
  rewrite <- not_true_iff_false, key_lt_spec. unfold precedes.
  destruct (Qlt_le_dec (Offer.rate a) (Offer.rate b)) as [Hlt | Hge].
  { split; [auto | intros _ H].
    destruct H as [H | [[H _] | (H & _)]]; lra. }
  destruct (Qlt_le_dec (Offer.rate b) (Offer.rate a)) as [Hgt | Hle].
  { split; [intros H; exfalso; apply H; now left |].
    intros [H | [[H _] | (H & _)]]; lra. }
  assert (Heq : Offer.rate a == Offer.rate b) by lra.
  assert (Heq' : Offer.rate b == Offer.rate a) by lra.
  split.
  - intros H.
    destruct (Z.lt_trichotomy (Offer.approval a) (Offer.approval b))
      as [Hf | [Hf | Hf]].
    + exfalso. apply H. right. left. split; [assumption | lia].
    + right. right. repeat split; try assumption.
      destruct (Z.le_gt_cases (Offer.emi a) (Offer.emi b)); [assumption |].
      exfalso. apply H. right. right. repeat split; [assumption | lia | lia].
    + right. left. split; [assumption | lia].
  - intros H H'.
    destruct H as [H | [[_ H] | (_ & H1 & H2)]];
      destruct H' as [H' | [[_ H'] | (_ & H3 & H4)]]; try lra; lia.
Qed.

Lemma precedes_trans (a b c : Offer.t) : precedes a b -> precedes b c -> precedes a c.
Proof.
  unfold precedes.
  intros [H1 | [[H1 H2] | (H1 & H2 & H3)]] [H4 | [[H4 H5] | (H4 & H5 & H6)]].
  all: try (left; lra).
  all: try (right; left; split; [lra | lia]).
  right. right. repeat split; [lra | lia | lia].
Qed.

Lemma precedes_total (a b : Offer.t) : precedes a b \/ precedes b a.
Proof.
  rewrite <- !key_lt_false.
  destruct (key_lt (sort_key b) (sort_key a)) eqn:E; [| now left].
  right. apply key_lt_false. apply key_lt_spec in E. unfold precedes.
  destruct E as [H | [H | (H1 & H2 & H3)]]; [now left | now (right; left) |].
  right. right. repeat split; [assumption .. | lia].
Qed.

(** Offers that may stand on either side of each other agree on the rate;
    when they also disagree on nothing else, they tie. *)
Lemma precedes_antisym (a b : Offer.t) :
  precedes a b -> precedes b a -> same_key a b = true.
Proof.
  unfold precedes, same_key.
  intros [H1 | [[H1 H2] | (H1 & H2 & H3)]] [H4 | [[H4 H5] | (H4 & H5 & H6)]];
    try lra; try lia.
  apply Qeq_bool_iff in H1. rewrite H1.
  apply andb_true_iff. split; [apply Z.eqb_eq | apply Z.eqb_eq]; lia.
Qed.

Lemma same_key_rate (a b : Offer.t) :
  same_key a b = true -> Offer.rate a == Offer.rate b.
Proof.
  unfold same_key. rewrite !andb_true_iff. intros [[H _] _].
  now apply Qeq_bool_iff.
Qed.

Lemma same_key_trans_lt (k x y : Offer.t) :
  same_key k x = true -> key_lt (sort_key x) (sort_key y) = true ->
  same_key k y = false.
Proof.
  unfold same_key. rewrite !andb_true_iff. intros [[H1 H2] H3] Hlt.
  apply Qeq_bool_iff in H1. apply Z.eqb_eq in H2, H3.
  apply key_lt_spec in Hlt.
  destruct (Qeq_bool (Offer.rate k) (Offer.rate y)) eqn:E1; [| reflexivity].
  apply Qeq_bool_iff in E1.
  destruct (Z.eqb_spec (Offer.approval k) (Offer.approval y)) as [E2 | E2];
    [| reflexivity].
  destruct (Z.eqb_spec (Offer.emi k) (Offer.emi y)) as [E3 | E3]; [| reflexivity].
  exfalso. destruct Hlt as [H | [[_ H] | (_ & _ & H)]]; [lra | lia | lia].
Qed.

Lemma sort_insert_perm (x : Offer.t) (sorted : list Offer.t) :
  sort_insert x sorted ≡ₚ x :: sorted.
Proof.
  induction sorted as [| y rest IH]; cbn [sort_insert]; [reflexivity |].
  destruct (key_lt (sort_key x) (sort_key y)); [reflexivity |].
  rewrite IH. apply Permutation_swap.
Qed.

Lemma sort_into_perm (sorted items : list Offer.t) :
  sort_into sorted items ≡ₚ sorted ++ items.
Proof.
  revert sorted. induction items as [| x items IH]; intros sorted; cbn [sort_into].
  - now rewrite app_nil_r.
  - rewrite IH, sort_insert_perm. apply Permutation_middle.
Qed.

Lemma list_sort_perm (items : list Offer.t) : list_sort items ≡ₚ items.
Proof. apply sort_into_perm. Qed.

Lemma sort_insert_sorted (x : Offer.t) (sorted : list Offer.t) :
  StronglySorted precedes sorted -> StronglySorted precedes (sort_insert x sorted).
Proof.
  induction 1 as [| y rest Hrest IH Hy]; cbn [sort_insert].
  - repeat constructor.
  - destruct (key_lt (sort_key x) (sort_key y)) eqn:E.
    + assert (Hxy : precedes x y).
      { destruct (precedes_total x y) as [H | H]; [exact H |].
        apply key_lt_false in H. congruence. }
      constructor; [now constructor |].
      constructor; [exact Hxy |].
      eapply Forall_impl; [exact Hy |].
      intros z Hz. cbn beta. eapply precedes_trans; eassumption.
    + constructor; [exact IH |].
      rewrite sort_insert_perm. constructor; [| exact Hy].
      now apply key_lt_false.
Qed.

Lemma sort_into_sorted (sorted items : list Offer.t) :
  StronglySorted precedes sorted -> StronglySorted precedes (sort_into sorted items).
Proof.
  revert sorted. induction items as [| x items IH]; intros sorted H; cbn [sort_into].
  - exact H.
  - apply IH, sort_insert_sorted, H.
Qed.

Lemma list_sort_sorted (items : list Offer.t) :
  StronglySorted precedes (list_sort items).
Proof. apply sort_into_sorted. constructor. Qed.

Lemma sorted_lookup (l : list Offer.t) (i j : nat) (a b : Offer.t) :
  StronglySorted precedes l -> l !! i = Some a -> l !! j = Some b ->
  (i < j)%nat -> precedes a b.
Proof.
  intros H. revert i j. induction H as [| x l _ IH Hx]; intros i j Hi Hj Hlt.
  - discriminate.
  - destruct j as [| j]; [lia |]. cbn in Hj.
    destruct i as [| i]; cbn in Hi.
    + injection Hi as <-. rewrite Forall_forall in Hx.
      eapply Hx, list_elem_of_lookup_2, Hj.
    + eapply IH; [eassumption .. | lia].
Qed.

(** Stability.  Placing [x] leaves every class of tied offers in its
    order, with [x] behind the members of its own class. *)
Lemma sort_insert_stable (k x : Offer.t) (sorted : list Offer.t) :
  StronglySorted precedes sorted ->
  List.filter (same_key k) (sort_insert x sorted)
  = List.filter (same_key k) (sorted ++ [x]).
Proof.
  induction 1 as [| y rest Hrest IH Hy]; cbn [sort_insert]; [reflexivity |].
  destruct (key_lt (sort_key x) (sort_key y)) eqn:E.
  - rewrite List.filter_app. cbn [List.filter].
    destruct (same_key k x) eqn:Ekx; [| now rewrite app_nil_r].
    assert (Hnone : Forall (fun z => same_key k z = false) (y :: rest)).
    { constructor; [eapply same_key_trans_lt; eassumption |].
      eapply Forall_impl; [exact Hy |].
      intros z Hz. cbn beta. eapply same_key_trans_lt; [exact Ekx |].
      apply key_lt_spec in E. apply key_lt_spec.
      unfold precedes in Hz.
      destruct E as [H | [[H1 H2] | (H1 & H2 & H3)]];
        destruct Hz as [H' | [[H4 H5] | (H4 & H5 & H6)]].
      all: try (left; lra).
      all: try (right; left; split; [lra | lia]).
      right. right. repeat split; [lra | lia | lia]. }
    assert (Hnil : List.filter (same_key k) (y :: rest) = []).
    { clear -Hnone. induction Hnone as [| z l Hz _ IH]; [reflexivity |].
      cbn [List.filter]. now rewrite Hz. }
    cbn [List.filter] in Hnil. now rewrite Hnil.
  - cbn [List.filter app]. rewrite IH. reflexivity.
Qed.

Lemma sort_into_stable (k : Offer.t) (sorted items : list Offer.t) :
  StronglySorted precedes sorted ->
  List.filter (same_key k) (sort_into sorted items)
  = List.filter (same_key k) (sorted ++ items).
Proof.
  revert sorted. induction items as [| x items IH]; intros sorted H; cbn [sort_into].
  - now rewrite app_nil_r.
  - rewrite IH by now apply sort_insert_sorted.
    rewrite List.filter_app, sort_insert_stable by exact H.
    rewrite <- List.filter_app, <- app_assoc. reflexivity.
Qed.

Lemma list_sort_stable (k : Offer.t) (items : list Offer.t) :
  List.filter (same_key k) (list_sort items) = List.filter (same_key k) items.
Proof. apply sort_into_stable. constructor. Qed.

(** ** Effective rates *)

Lemma py_round_n_2 (x : Q) : py_round_n x 2 = inject_Z (py_round (x * 100)) / 100.
Proof. reflexivity. Qed.

Lemma py_round_n_2_ge (x : Q) (n : Z) :
  inject_Z n <= x * 100 -> inject_Z n / 100 <= py_round_n x 2.
Proof.
  intros H. rewrite py_round_n_2.
  assert (Hn : (n <= py_round (x * 100))%Z).
  { apply Qfloor_resp_le in H. rewrite Qfloor_Z in H.
    pose proof (py_round_floor (x * 100)). lia. }
  rewrite Zle_Qle in Hn. unfold Qdiv. change (/ 100) with (1 # 100). lra.
Qed.

(** No effective rate is below the floor of 7.75 percent. *)
Lemma effective_rate_floor (profile : Profile.t) (bank : Bank.t) :
  7.75 <= effective_rate profile bank.
Proof.
  unfold effective_rate.
  set (x := py_max _ 7.75).
  assert (Hx : 7.75 <= x) by apply py_max_spec.
  assert (H : inject_Z 775 / 100 <= py_round_n x 2).
  { apply py_round_n_2_ge. change (inject_Z 775) with 775. lra. }
  assert (E : inject_Z 775 / 100 == 7.75) by reflexivity.
  lra.
Qed.

(** ** The catalog *)

Lemma BANKS_lookup (loan_type : string) (banks : list Bank.t) :
  BANKS !! loan_type = Some banks -> (loan_type, banks) ∈ map_to_list BANKS.
Proof. apply elem_of_map_to_list. Qed.

(** One goal per bucket of the catalog, then one per lender of it. *)
Ltac elem_cases H :=
  repeat (apply elem_of_cons in H as [H | H]; [| try elem_cases H]);
  try (apply elem_of_nil in H; contradiction).

Ltac catalog_cases H :=
  apply BANKS_lookup in H;
  let l := fresh "l" in
  set (l := map_to_list BANKS) in H; vm_compute in l; subst l;
  elem_cases H; injection H as -> ->.

Lemma BANKS_names_distinct (loan_type : string) (banks : list Bank.t) :
  BANKS !! loan_type = Some banks -> NoDup (Bank.name <$> banks).
Proof.
  intros H. catalog_cases H; apply (bool_decide_unpack _); vm_compute; exact I.
Qed.

(** In the catalog of [app.py] every base rate is a multiple of 0.01 and
    at least 8.35, so neither the floor nor the rounding changes the sum
    of the base rate and the three adjustments. *)
Lemma effective_rate_catalog (profile : Profile.t) (loan_type : string)
    (banks : list Bank.t) (bank : Bank.t) :
  BANKS !! loan_type = Some banks -> bank ∈ banks ->
  effective_rate profile bank
  == Bank.base_rate bank
     + (credit_adjustment profile + foir_adjustment profile
        + stability_adjustment profile).
Proof.
  intros H Hbank. unfold effective_rate, credit_adjustment, foir_adjustment,
    stability_adjustment.
  destruct (760 <=? _)%Z; [| destruct (720 <=? _)%Z];
    (destruct (Qle_bool (Profile.foir profile) 0.4);
       [| destruct (Qltb 0.5 (Profile.foir profile))]);
    (destruct (Qle_bool 1 (Profile.stability profile));
       [| destruct (Qltb (Profile.stability profile) 0.8)]);
    catalog_cases H; elem_cases Hbank; subst bank; vm_compute; reflexivity.
Qed.

(** Lenders of one bucket with the same effective rate are the same
    lender: base rates within a bucket are pairwise different and the
    adjustments depend on the profile alone. *)
Lemma effective_rate_inj (profile : Profile.t) (loan_type : string)
    (banks : list Bank.t) (b1 b2 : Bank.t) :
  BANKS !! loan_type = Some banks -> b1 ∈ banks -> b2 ∈ banks ->
  effective_rate profile b1 == effective_rate profile b2 ->
  Bank.name b1 = Bank.name b2.
Proof.
  intros H H1 H2 Hrate.
  rewrite (effective_rate_catalog profile loan_type banks b1 H H1) in Hrate.
  rewrite (effective_rate_catalog profile loan_type banks b2 H H2) in Hrate.
  assert (Hbase : Bank.base_rate b1 == Bank.base_rate b2) by lra.
  clear Hrate.
  catalog_cases H; elem_cases H1; elem_cases H2; subst b1 b2;
    first [reflexivity | vm_compute in Hbase; discriminate Hbase].
Qed.

(** ** The offer engine *)

Lemma build_offers_short_circuit (profile : Profile.t) (prediction : Z)
    (confidence : Q) :
  prediction <> 1%Z -> build_offers profile prediction confidence = Ok [].
Proof.
  intros H. unfold build_offers.
  apply Z.eqb_neq in H. now rewrite H.
Qed.

(** C1. With a prediction other than 1 (approve) [build_offers] returns
    the empty list it starts from, whatever the profile and confidence:
    the catalog is not looked up and no lender's body runs, so not even a
    loan type absent from the catalog or an income of zero raises. *)
Theorem build_offers_denied (profile : Profile.t) (prediction : Z) (confidence : Q) :
  prediction <> 1%Z ->
  build_offers profile prediction confidence = Ok [].
Proof.
  intros Hdenied. unfold build_offers.
  destruct (Z.eqb_spec prediction 1) as [Happroved | _]; [contradiction |].
  reflexivity.
Qed.

Lemma build_offers_unfold (profile : Profile.t) (confidence : Q)
    (offers : list Offer.t) :
  build_offers profile 1 confidence = Ok offers ->
  exists banks items,
    BANKS !! Profile.loan_type profile = Some banks
    /\ Forall2 (fun bank item => bank_offer profile confidence bank = Ok item)
               banks items
    /\ offers = list_sort (omap id items).
Proof.
  unfold build_offers. cbn [Z.eqb Pos.eqb negb].
  destruct (BANKS !! Profile.loan_type profile) as [banks |] eqn:Ebanks;
    [| discriminate].
  cbn [bind].
  destruct (offers_loop profile confidence banks []) as [appended | e] eqn:Eloop;
    [| discriminate].
  cbn [bind]. intros [= <-].
  apply offers_loop_spec in Eloop as (items & Hitems & ->).
  exists banks, items. auto.
Qed.



Lemma build_offers_names (profile : Profile.t) (confidence : Q)
    (offers : list Offer.t) :
  build_offers profile 1 confidence = Ok offers ->
  NoDup (Offer.bank <$> offers).
Proof.
  intros H. apply build_offers_unfold in H as (banks & items & Hbanks & Hitems & ->).
  rewrite list_sort_perm.
  eapply sublist_NoDup; [| eapply loop_items_names, Hitems].
  eapply BANKS_names_distinct, Hbanks.
Qed.

(** Offers of a returned list with the same rate come from the same
    lender. *)
Lemma build_offers_rates (profile : Profile.t) (confidence : Q)
    (offers : list Offer.t) (a b : Offer.t) :
  build_offers profile 1 confidence = Ok offers ->
  a ∈ offers -> b ∈ offers -> Offer.rate a == Offer.rate b ->
  Offer.bank a = Offer.bank b.
Proof.
  intros H Ha Hb Hrate.
  apply build_offers_unfold in H as (banks & items & Hbanks & Hitems & ->).
  rewrite list_sort_perm in Ha, Hb.
  destruct (loop_items_elem profile confidence banks items a Hitems Ha)
    as (bank_a & Hin_a & Hoffer_a).
  destruct (loop_items_elem profile confidence banks items b Hitems Hb)
    as (bank_b & Hin_b & Hoffer_b).
  apply bank_offer_some in Hoffer_a as (_ & -> & Hrate_a & _).
  apply bank_offer_some in Hoffer_b as (_ & -> & Hrate_b & _).
  rewrite Hrate_a, Hrate_b in Hrate.
  eapply effective_rate_inj; eassumption.
Qed.

(** C3. In a list returned by [build_offers], the offer at one position
    stands before the offer at another position exactly when its rate is
    lower, or the rates are equal and its approval fit is higher, or both
    are equal and its EMI is not higher.  The offers that tie with any
    given offer on all three keys stand in the returned list in the order
    in which the loop appended them, which is the order of the catalog. *)
Theorem offers_ranked (profile : Profile.t) (prediction : Z) (confidence : Q)
    (offers : list Offer.t) :
  build_offers profile prediction confidence = Ok offers ->
  (forall (i j : nat) (a b : Offer.t),
     offers !! i = Some a -> offers !! j = Some b -> i <> j ->
     ((i < j)%nat <-> precedes a b))
  /\ (prediction = 1%Z ->
      exists banks items,
        BANKS !! Profile.loan_type profile = Some banks
        /\ Forall2 (fun bank item => bank_offer profile confidence bank = Ok item)
                   banks items
        /\ forall k : Offer.t,
             List.filter (same_key k) offers
             = List.filter (same_key k) (omap id items)).
Proof.
  intros Hbuild.
  destruct (Z.eq_dec prediction 1%Z) as [-> | Hdenied].
  - split.
    + intros i j a b Hi Hj Hij.
      pose proof Hbuild as Hunfold.
      apply build_offers_unfold in Hunfold as (banks & items & _ & _ & Hsort).
      assert (Hsorted : StronglySorted precedes offers).
      { rewrite Hsort. apply list_sort_sorted. }
      split; [intros Hlt; eapply sorted_lookup; eassumption |].
      intros Hab.
      destruct (Nat.lt_trichotomy i j) as [Hlt | [Heq | Hgt]];
        [exact Hlt | contradiction |].
      exfalso. apply Hij.
      assert (Hba : precedes b a) by (eapply sorted_lookup; eassumption).
      assert (Hname : Offer.bank a = Offer.bank b).
      { eapply build_offers_rates; [exact Hbuild | | |].
        - eapply list_elem_of_lookup_2, Hi.
        - eapply list_elem_of_lookup_2, Hj.
        - apply same_key_rate, precedes_antisym; assumption. }
      eapply (NoDup_lookup (Offer.bank <$> offers) i j (Offer.bank a)).
      * eapply build_offers_names, Hbuild.
      * now rewrite list_lookup_fmap, Hi.
      * now rewrite list_lookup_fmap, Hj, Hname.
    + intros _.
      apply build_offers_unfold in Hbuild as (banks & items & Hbanks & Hitems & ->).
      exists banks, items. repeat split; try assumption.
      intros k. apply list_sort_stable.
  - rewrite build_offers_short_circuit in Hbuild by exact Hdenied.
    injection Hbuild as <-. split; [| contradiction].
    intros i j a b Hi. discriminate Hi.
Qed.

(** ** The dashboard's validation chain *)





Lemma evaluate_inv (model : Model) (form : Form.t) (stability : Q)
    (decision : Decision.t) :
  evaluate model form stability = Ok decision ->
  exists baseline_emi,
    emi (Form.loan_amount form) 10.0 (Form.tenure_months form) = Ok baseline_emi
    /\ ~ Form.monthly_income form == 0
    /\ let foir := (Form.existing_emi form + baseline_emi)
                   / Form.monthly_income form in
       let X := (Form.monthly_income form, Form.loan_amount form,
                 inject_Z (Form.credit_score form)) in
       let prediction := predict model X in
       let confidence := py_round (snd (predict_proba model X) * 100) in
       Decision.profile decision
       = Profile.mk (Form.full_name form) (Form.age form) (Form.employment form)
           (Form.monthly_income form) (Form.monthly_expenses form)
           (Form.existing_emi form) (Form.credit_score form)
           (Form.loan_amount form) (Form.tenure_months form)
           (Form.loan_type form)
           (py_max (Form.monthly_income form - Form.monthly_expenses form
                    - Form.existing_emi form) 0)
           foir stability
       /\ Decision.confidence decision = confidence
       /\ (Decision.risk_label decision, Decision.risk_score decision)
          = profile_risk (Form.credit_score form) foir stability
       /\ build_offers (Decision.profile decision) prediction (inject_Z confidence)
          = Ok (Decision.offers decision)
       /\ Decision.status decision
          = (if (prediction =? 1)%Z
                && negb (bool_decide (Decision.offers decision = []))
             then "APPROVED"
             else if (prediction =? 1)%Z then "CONDITIONAL"
             else "REJECTED")%string
       /\ Decision.best_offer decision = head (Decision.offers decision)
       /\ (Decision.reasons decision, Decision.cautions decision)
          = explain_profile (Decision.profile decision) confidence
              (Decision.risk_label decision).
Proof.
  unfold evaluate.
  destruct (emi _ _ _) as [baseline_emi | e]; [| discriminate]. cbn [bind].
  unfold py_div.
  destruct (Qeq_bool (Form.monthly_income form) 0) eqn:Eincome; [discriminate |].
  apply Qeq_bool_false in Eincome. cbn [bind].
  destruct (profile_risk _ _ _) as [risk_label risk_score] eqn:Erisk.
  destruct (build_offers _ _ _) as [offers | e] eqn:Ebuild; [| discriminate].
  cbn [bind].
  destruct (explain_profile _ _ _) as [reasons cautions] eqn:Eexplain.
  intros [= <-]. exists baseline_emi.
  split; [reflexivity |]. split; [exact Eincome |].
  cbv zeta. cbn [Decision.profile Decision.confidence Decision.risk_label
                 Decision.risk_score Decision.offers Decision.status
                 Decision.best_offer Decision.reasons Decision.cautions].
  rewrite Erisk, Ebuild, Eexplain. repeat split.
Qed.

Lemma dashboard_render_inv (model : Model) (form : Form.t) (decision : Decision.t) :
  dashboard model form = Render decision ->
  valid_form form
  /\ evaluate model form
       (default 0.8 (EMPLOYMENT_STABILITY !! Form.employment form))
     = Ok decision.
Proof.
  unfold dashboard, valid_form.
  destruct (bool_decide (is_Some _)) eqn:E1; [| discriminate].
  apply bool_decide_eq_true_1 in E1. cbn [negb].
  destruct (21 <=? Form.age form)%Z eqn:E2; [| discriminate].
  destruct (Form.age form <=? 65)%Z eqn:E3; [| discriminate].
  apply Z.leb_le in E2, E3. cbn [andb negb].
  destruct (Qle_bool (Form.monthly_income form) 0) eqn:E4; [discriminate |].
  destruct (Qle_bool (Form.loan_amount form) 0) eqn:E5; [discriminate |].
  destruct (Form.tenure_months form <? 12)%Z eqn:E6; [discriminate |].
  apply Qle_bool_gt in E4, E5. apply Z.ltb_ge in E6. cbn [orb].
  destruct (Qltb (Form.monthly_expenses form) 0) eqn:E7; [discriminate |].
  destruct (Qltb (Form.existing_emi form) 0) eqn:E8; [discriminate |].
  apply Qltb_ge in E7, E8. cbn [orb].
  destruct (300 <=? Form.credit_score form)%Z eqn:E9; [| discriminate].
  destruct (Form.credit_score form <=? 900)%Z eqn:E10; [| discriminate].
  apply Z.leb_le in E9, E10. cbn [andb negb].
  destruct (evaluate _ _ _) as [d | e]; [| discriminate].
  intros [= <-]. repeat split; assumption.
Qed.



(** * The properties at the sample inputs *)

Lemma build_offers_denied_witness : build_offers stray_profile 0 50 = Ok [].
Proof.
  apply (build_offers_denied stray_profile 0 50). lia.
Defined.

(** The same profile, had it been approved, would stop at the catalog. *)
Example build_offers_stray_approved :
  build_offers stray_profile 1 50 = Raise (KeyError "Gold").
Proof. reflexivity. Qed.


Lemma offers_ranked_witness :
  exists offers,
    build_offers example_profile 1 95 = Ok offers
    /\ Offer.bank <$> offers = ["SBI"; "HDFC"; "ICICI"; "Axis"]%string
    /\ (forall (i j : nat) (a b : Offer.t),
          offers !! i = Some a -> offers !! j = Some b -> i <> j ->
          ((i < j)%nat <-> precedes a b))
    /\ (1%Z = 1%Z ->
        exists banks items,
          BANKS !! Profile.loan_type example_profile = Some banks
          /\ Forall2 (fun bank item => bank_offer example_profile 95 bank = Ok item)
                     banks items
          /\ forall k : Offer.t,
               List.filter (same_key k) offers
               = List.filter (same_key k) (omap id items)).
Proof.
  eexists.
  split; [vm_compute; reflexivity |].
  split; [reflexivity |].
  apply (offers_ranked example_profile 1 95).
  vm_compute. reflexivity.
Defined.



(** The sample form with the unknown employment is rendered, with the
    default stability. *)
Example student_form_rendered :
  exists decision,
    dashboard FallbackModel.model student_form = Render decision
    /\ Profile.stability (Decision.profile decision) = 0.8
    /\ Decision.status decision = "APPROVED"%string.
Proof. eexists. split; [vm_compute; reflexivity |]. split; reflexivity. Qed.

(** The sort on a list with ties: the two offers at 8.00 with fit 90 and
    EMI 100 keep their order behind the offer with the higher fit, and the
    cheaper rate comes first. *)
Example list_sort_ties :
  Offer.bank <$> list_sort [
    Offer.mk "A" 8.00 100 1200 0.5 90 30 "Best Rate";
    Offer.mk "B" 7.90 100 1200 0.5 80 30 "Best Rate";
    Offer.mk "C" 8.0 100 1200 0.5 90 30 "Best Rate";
    Offer.mk "D" 8 100 1200 0.5 95 30 "Best Rate";
    Offer.mk "E" 8.00 99 1200 0.5 90 30 "Best Rate" ]
  = ["B"; "D"; "E"; "A"; "C"]%string.
Proof. reflexivity. Qed.

(** The running example through the whole view. *)
Example dashboard_example :
  exists decision,
    dashboard FallbackModel.model example_form = Render decision
    /\ Decision.status decision = "APPROVED"%string
    /\ Decision.confidence decision = 95%Z
    /\ Decision.risk_label decision = "Low"%string
    /\ Offer.bank <$> Decision.offers decision
       = ["SBI"; "HDFC"; "ICICI"; "Axis"]%string.
Proof.
  eexists. split; [vm_compute; reflexivity |]. repeat split.
Qed.

(** * Further properties of the engine *)

(** ** EMI: a term of zero months *)

(** X1. A term of zero months makes [emi] raise [ZeroDivisionError]
    whatever the principal and the rate: in the zero-rate branch the
    principal is divided by the months, in the other the growth factor is
    one and the formula divides by [factor - 1]. *)
Theorem emi_zero_months :
  forall principal annual_rate : Q,
    emi principal annual_rate 0 = Raise ZeroDivisionError.
Proof.
  intros principal annual_rate. unfold emi.
  destruct (Qeq_bool (annual_rate / 12 / 100) 0); [reflexivity |].
  unfold py_pow. rewrite andb_false_r. reflexivity.
Qed.

(** ** Fallback model: the clamp and the floor of the score *)

Lemma clamp_range (x lo hi : Q) :
  lo <= hi -> lo <= py_min (py_max x lo) hi /\ py_min (py_max x lo) hi <= hi.
Proof.
  intros H.
  assert (Hmax : lo <= py_max x lo) by apply py_max_spec.
  revert Hmax. generalize (py_max x lo). intros a Ha.
  unfold py_min. qcase; split; lra.
Qed.

Lemma clamp_id (x lo hi : Q) :
  lo <= x -> x <= hi -> py_min (py_max x lo) hi = x.
Proof.
  intros H1 H2. unfold py_min, py_max.
  apply Qltb_ge in H1. rewrite H1.
  apply Qltb_ge in H2. now rewrite H2.
Qed.

Lemma clamp_mono (x y lo hi : Q) :
  x <= y -> py_min (py_max x lo) hi <= py_min (py_max y lo) hi.
Proof.
  intros H.
  assert (Hmax : py_max x lo <= py_max y lo).
  { unfold py_max. repeat qcase; lra. }
  revert Hmax. generalize (py_max x lo) (py_max y lo). intros a b Hab.
  unfold py_min. repeat qcase; lra.
Qed.

(** The bounds of the approval probability in the form the view needs. *)
Lemma fallback_proba_floor_aux (X : Q * Q * Q) :
  0.22 <= snd (FallbackModel.predict_proba X)
  /\ snd (FallbackModel.predict_proba X) <= 0.95.
Proof.
  destruct X as [[monthly_income loan_amount] credit_score].
  unfold FallbackModel.predict_proba. cbn [snd].
  destruct (clamp_range ((credit_score - 500) / 360) 0 0.53) as [H1 H2]; [lra |].
  destruct (clamp_range ((monthly_income - loan_amount / 120) / 120000) 0 0.2)
    as [H3 H4]; [lra |].
  set (a := py_min (py_max ((credit_score - 500) / 360) 0) 0.53) in *.
  set (b := py_min (py_max ((monthly_income - loan_amount / 120) / 120000) 0) 0.2) in *.
  rewrite clamp_id by lra. split; lra.
Qed.

Lemma fallback_approval_floor_aux (X : Q * Q * Q) :
  FallbackModel.predict X = 1%Z ->
  191 # 300 <= snd (FallbackModel.predict_proba X).
Proof.
  destruct X as [[monthly_income loan_amount] credit_score].
  unfold FallbackModel.predict.
  destruct (Qle_bool (loan_amount / 120) monthly_income) eqn:E1; [| discriminate].
  destruct (Qle_bool 650 credit_score) eqn:E2; [| discriminate].
  intros _. apply Qle_bool_iff in E1, E2.
  unfold FallbackModel.predict_proba. cbn [snd].
  destruct (clamp_range ((monthly_income - loan_amount / 120) / 120000) 0 0.2)
    as [H3 H4]; [lra |].
  set (b := py_min (py_max ((monthly_income - loan_amount / 120) / 120000) 0) 0.2) in *.
  assert (Ha : 150 / 360 <= py_min (py_max ((credit_score - 500) / 360) 0) 0.53).
  { assert (E : 150 / 360 = py_min (py_max (150 / 360) 0) 0.53) by reflexivity.
    rewrite E at 1. apply clamp_mono.
    unfold Qdiv. change (/ 360) with (1 # 360). lra. }
  destruct (clamp_range ((credit_score - 500) / 360) 0 0.53) as [H1 H2]; [lra |].
  set (a := py_min (py_max ((credit_score - 500) / 360) 0) 0.53) in *.
  rewrite clamp_id by lra.
  assert (E : 150 / 360 == 5 # 12) by reflexivity. lra.
Qed.

(** ** Risk scorer: range, bands, monotonicity *)

Lemma risk_credit_delta_cases (credit_score : Z) :
  ((760 <= credit_score)%Z /\ risk_credit_delta credit_score = (-35)%Z)
  \/ ((700 <= credit_score < 760)%Z /\ risk_credit_delta credit_score = (-22)%Z)
  \/ ((650 <= credit_score < 700)%Z /\ risk_credit_delta credit_score = (-10)%Z)
  \/ ((credit_score < 650)%Z /\ risk_credit_delta credit_score = 0%Z).
Proof.
  unfold risk_credit_delta.
  destruct (Z.leb_spec 760 credit_score); [auto |].
  destruct (Z.leb_spec 700 credit_score);
    [right; left; split; [lia | reflexivity] |].
  destruct (Z.leb_spec 650 credit_score);
    [right; right; left; split; [lia | reflexivity] |].
  right. right. right. split; [lia | reflexivity].
Qed.

Lemma risk_foir_delta_cases (foir : Q) :
  (foir <= 0.35 /\ risk_foir_delta foir = (-25)%Z)
  \/ (0.35 < foir /\ foir <= 0.45 /\ risk_foir_delta foir = (-15)%Z)
  \/ (0.45 < foir /\ foir <= 0.55 /\ risk_foir_delta foir = (-5)%Z)
  \/ (0.55 < foir /\ risk_foir_delta foir = 20%Z).
Proof.
  unfold risk_foir_delta.
  qcase; [auto |]. qcase; [right; left; auto |].
  qcase; [right; right; left; auto |]. right. right. right. auto.
Qed.

Lemma risk_stability_delta_cases (stability : Q) :
  (0.95 <= stability /\ risk_stability_delta stability = (-12)%Z)
  \/ (0.8 <= stability /\ stability < 0.95 /\ risk_stability_delta stability = 0%Z)
  \/ (stability < 0.8 /\ risk_stability_delta stability = 10%Z).
Proof.
  unfold risk_stability_delta.
  qcase; [auto |]. qcase; [right; right; auto |]. right. left. auto.
Qed.

(** The score and the label in terms of the three adjustments. *)
Lemma profile_risk_unfold (credit_score : Z) (foir stability : Q) :
  let score :=
    Z.max 5 (Z.min 95 (100 + risk_credit_delta credit_score
                       + risk_foir_delta foir + risk_stability_delta stability)) in
  snd (profile_risk credit_score foir stability) = score
  /\ fst (profile_risk credit_score foir stability)
     = (if (score <=? 35)%Z then "Low"
        else if (score <=? 60)%Z then "Medium" else "High")%string.
Proof.
  unfold profile_risk. cbv zeta.
  destruct (_ <=? 35)%Z; [split; reflexivity |].
  destruct (_ <=? 60)%Z; split; reflexivity.
Qed.

(** X8. The risk score lies between 28 and 95: the best band of every
    factor brings it down to 100 - 35 - 25 - 12 = 28, so the lower clamp
    at 5 never applies.  The label is "Low" up to 35, "Medium" up to 60
    and "High" above. *)
Theorem risk_score_range :
  forall (credit_score : Z) (foir stability : Q),
    let label := fst (profile_risk credit_score foir stability) in
    let score := snd (profile_risk credit_score foir stability) in
    (28 <= score <= 95)%Z
    /\ ((label = "Low"%string /\ (score <= 35)%Z)
        \/ (label = "Medium"%string /\ (35 < score <= 60)%Z)
        \/ (label = "High"%string /\ (60 < score)%Z)).
Proof.
  intros credit_score foir stability.
  destruct (profile_risk_unfold credit_score foir stability) as [Hscore Hlabel].
  cbv zeta in *. rewrite Hlabel, Hscore. clear Hscore Hlabel.
  split.
  - destruct (risk_credit_delta_cases credit_score)
      as [[_ ->] | [[_ ->] | [[_ ->] | [_ ->]]]];
      destruct (risk_foir_delta_cases foir)
        as [[_ ->] | [(_ & _ & ->) | [(_ & _ & ->) | [_ ->]]]];
      destruct (risk_stability_delta_cases stability)
        as [[_ ->] | [(_ & _ & ->) | [_ ->]]]; lia.
  - destruct (Z.leb_spec (Z.max 5 (Z.min 95 (100 + risk_credit_delta credit_score
                + risk_foir_delta foir + risk_stability_delta stability))) 35);
      [left; split; [reflexivity | assumption] |].
    destruct (Z.leb_spec (Z.max 5 (Z.min 95 (100 + risk_credit_delta credit_score
                + risk_foir_delta foir + risk_stability_delta stability))) 60).
    + right. left. split; [reflexivity | lia].
    + right. right. split; [reflexivity | lia].
Qed.

(** Evaluation of the clamp and of the label's tests once the three
    adjustments are numerals. *)
Ltac eval_label :=
  repeat match goal with
  | |- context [Z.max 5 ?e] =>
      let v := eval vm_compute in (Z.max 5 e) in change (Z.max 5 e) with v
  end;
  repeat match goal with
  | |- context [(?a <=? ?b)%Z] =>
      let v := eval vm_compute in (a <=? b)%Z in change (a <=? b)%Z with v
  end;
  cbv iota.

(** X9. The label is "Low" exactly for a credit score of 760 or more
    together with a FOIR of at most 0.35 and a stability coefficient of at
    least 0.95, and the score is then 28. *)
Theorem risk_low_iff :
  forall (credit_score : Z) (foir stability : Q),
    (fst (profile_risk credit_score foir stability) = "Low"%string
     <-> (760 <= credit_score)%Z /\ foir <= 0.35 /\ 0.95 <= stability)
    /\ (fst (profile_risk credit_score foir stability) = "Low"%string ->
        snd (profile_risk credit_score foir stability) = 28%Z).
Proof.
  intros credit_score foir stability.
  destruct (profile_risk_unfold credit_score foir stability) as [Hscore Hlabel].
  cbv zeta in *. rewrite Hlabel, Hscore. clear Hscore Hlabel.
  destruct (risk_credit_delta_cases credit_score)
    as [[Hc ->] | [[Hc ->] | [[Hc ->] | [Hc ->]]]];
    destruct (risk_foir_delta_cases foir)
      as [[Hf ->] | [(Hf & Hf' & ->) | [(Hf & Hf' & ->) | [Hf ->]]]];
    destruct (risk_stability_delta_cases stability)
      as [[Hs ->] | [(Hs & Hs' & ->) | [Hs ->]]];
    eval_label;
    (split; [split; [try discriminate; auto
                    | intros (H1 & H2 & H3);
                      first [reflexivity | exfalso; lia | exfalso; lra]]
            | try discriminate; auto]).
Qed.

(** X10. A credit score under 650, or a FOIR above 0.55, is enough for
    the label "High", whatever the other inputs. *)
Theorem risk_high_sufficient (credit_score : Z) (foir stability : Q) :
  (credit_score < 650)%Z \/ 0.55 < foir ->
  fst (profile_risk credit_score foir stability) = "High"%string.
Proof.
  intros H.
  destruct (profile_risk_unfold credit_score foir stability) as [_ Hlabel].
  cbv zeta in *. rewrite Hlabel. clear Hlabel.
  destruct (risk_credit_delta_cases credit_score)
    as [[Hc ->] | [[Hc ->] | [[Hc ->] | [Hc ->]]]];
    destruct (risk_foir_delta_cases foir)
      as [[Hf ->] | [(Hf & Hf' & ->) | [(Hf & Hf' & ->) | [Hf ->]]]];
    destruct (risk_stability_delta_cases stability)
      as [[Hs ->] | [(Hs & Hs' & ->) | [Hs ->]]];
    eval_label; try reflexivity; exfalso; destruct H as [H | H]; first [lia | lra].
Qed.

Lemma risk_high_sufficient_witness :
  fst (profile_risk 640 0.2 1) = "High"%string.
Proof.
  apply (risk_high_sufficient 640 0.2 1). left. lia.
Defined.

(** X11. The risk score never rises when the credit score or the
    stability coefficient rises or the FOIR falls. *)
Theorem risk_score_monotone (c1 c2 : Z) (f1 f2 s1 s2 : Q) :
  (c1 <= c2)%Z -> f2 <= f1 -> s1 <= s2 ->
  (snd (profile_risk c2 f2 s2) <= snd (profile_risk c1 f1 s1))%Z.
Proof.
  intros Hc Hf Hs.
  destruct (profile_risk_unfold c1 f1 s1) as [-> _].
  destruct (profile_risk_unfold c2 f2 s2) as [-> _].
  assert (H1 : (risk_credit_delta c2 <= risk_credit_delta c1)%Z).
  { destruct (risk_credit_delta_cases c1) as [[? ->] | [[? ->] | [[? ->] | [? ->]]]];
      destruct (risk_credit_delta_cases c2) as [[? ->] | [[? ->] | [[? ->] | [? ->]]]];
      lia. }
  assert (H2 : (risk_foir_delta f2 <= risk_foir_delta f1)%Z).
  { destruct (risk_foir_delta_cases f1)
      as [[? ->] | [(? & ? & ->) | [(? & ? & ->) | [? ->]]]];
      destruct (risk_foir_delta_cases f2)
        as [[? ->] | [(? & ? & ->) | [(? & ? & ->) | [? ->]]]];
      first [lia | exfalso; lra]. }
  assert (H3 : (risk_stability_delta s2 <= risk_stability_delta s1)%Z).
  { destruct (risk_stability_delta_cases s1) as [[? ->] | [(? & ? & ->) | [? ->]]];
      destruct (risk_stability_delta_cases s2) as [[? ->] | [(? & ? & ->) | [? ->]]];
      first [lia | exfalso; lra]. }
  lia.
Qed.

Lemma risk_score_monotone_witness :
  (snd (profile_risk 780 0.3 1) <= snd (profile_risk 640 0.6 0.75))%Z.
Proof.
  apply (risk_score_monotone 640 780 0.6 0.3 0.75 1); [lia | discriminate ..].
Defined.

(** ** Explanation generator *)

(** Case analysis on every test of [explain_profile]. *)
Ltac explain_cases data decision_confidence risk_label :=
  unfold explain_profile;
  destruct (740 <=? Profile.credit_score data)%Z;
    [| destruct (Profile.credit_score data <? 670)%Z];
  (destruct (Qle_bool (Profile.foir data) 0.4);
     [| destruct (Qltb 0.55 (Profile.foir data))]);
  destruct (Qle_bool (0.35 * Profile.monthly_income data)
              (Profile.disposable_income data));
  destruct (decision_confidence <? 55)%Z;
  destruct (String.eqb_spec risk_label "High");
  cbn [app andb bool_decide decide_rel fst snd].

(** X12. A "High" risk label never leaves the list of cautions empty:
    when no other caution applies, the general one is added. *)
Theorem explain_high_risk_cautioned (data : Profile.t) (decision_confidence : Z) :
  snd (explain_profile data decision_confidence "High") <> [].
Proof.
  explain_cases data decision_confidence "High"%string;
    first [discriminate | congruence].
Qed.

(** X13. The reasons are a selection, in this order, of the three reason
    sentences; the cautions are a selection, in this order, of the three
    specific caution sentences, or else the general caution alone, which
    only a "High" label brings. *)
Theorem explain_profile_shape :
  forall (data : Profile.t) (decision_confidence : Z) (risk_label : string),
    let reasons := fst (explain_profile data decision_confidence risk_label) in
    let cautions := snd (explain_profile data decision_confidence risk_label) in
    sublist reasons
      [ "Strong credit profile increases lender trust.";
        "Healthy FOIR indicates manageable repayment capacity.";
        "Disposable income supports stable EMI servicing." ]%string
    /\ (sublist cautions
          [ "Credit score is below preferred range for premium offers.";
            "FOIR is high; lenders may reduce sanction amount.";
            "Eligibility confidence is moderate; terms may vary by lender." ]%string
        \/ (risk_label = "High"%string
            /\ cautions
               = ["Overall profile is sensitive to higher loan burden."%string])).
Proof.
  intros data decision_confidence risk_label. cbv zeta.
  explain_cases data decision_confidence risk_label;
    (split; [solve [repeat constructor] |]);
    first [left; solve [repeat constructor] | right; split; [assumption | reflexivity]].
Qed.

(** ** Offers: fields, order and number *)

Lemma py_int_bounds (x : Q) (lo hi : Z) :
  (0 <= lo)%Z -> inject_Z lo <= x -> x <= inject_Z hi ->
  (lo <= py_int x <= hi)%Z.
Proof.
  intros Hlo H1 H2. destruct x as [a b]. unfold py_int. cbn [Qnum Qden].
  unfold Qle in H1, H2. cbn [Qnum Qden inject_Z] in H1, H2.
  rewrite Z.mul_1_r in H1, H2.
  assert (Ha : (0 <= a)%Z) by nia.
  rewrite Z.quot_div_nonneg by lia.
  split.
  - apply Z.div_le_lower_bound; lia.
  - apply Z.div_le_upper_bound; lia.
Qed.

Lemma adjustments_range (profile : Profile.t) :
  -0.55 <= credit_adjustment profile + foir_adjustment profile
           + stability_adjustment profile
  /\ credit_adjustment profile + foir_adjustment profile
     + stability_adjustment profile <= 0.65.
Proof.
  unfold credit_adjustment, foir_adjustment, stability_adjustment.
  destruct (760 <=? _)%Z; [| destruct (720 <=? _)%Z];
    (destruct (Qle_bool (Profile.foir profile) 0.4);
       [| destruct (Qltb 0.5 (Profile.foir profile))]);
    (destruct (Qle_bool 1 (Profile.stability profile));
       [| destruct (Qltb (Profile.stability profile) 0.8)]);
    split; discriminate.
Qed.

Lemma bank_offer_fields (profile : Profile.t) (confidence : Q) (bank : Bank.t)
    (offer : Offer.t) :
  bank_offer profile confidence bank = Ok (Some offer) ->
  (35 <= Offer.approval offer <= 98)%Z
  /\ Offer.tag offer
     = (if Qle_bool (effective_rate profile bank) (Bank.base_rate bank)
        then "Best Rate" else "Fast Approval")%string
  /\ Offer.processing_fee offer = py_round_n (Bank.processing_fee bank) 2.
Proof.
  unfold bank_offer.
  destruct (_ <? _)%Z; [discriminate |].
  destruct (emi _ _ _) as [monthly_emi | e]; [| discriminate]. cbn [bind].
  destruct (py_div _ _) as [actual_foir | e]; [| discriminate]. cbn [bind].
  destruct (Qltb _ _); [discriminate |].
  intros [= <-]. cbn [Offer.approval Offer.tag Offer.processing_fee].
  split; [| split; reflexivity].
  match goal with
  | |- context [py_int (py_max 35 (py_min 98 ?x))] =>
      generalize x; intros bank_fit
  end.
  apply py_int_bounds; [lia | |].
  - apply py_max_spec.
  - unfold py_max, py_min. repeat qcase; change (inject_Z 98) with 98; lra.
Qed.

(** X14. Every offer of a returned list has an approval fit between 35
    and 98, a rate of at least 7.75, and one of the two tags. *)
Theorem offer_field_bounds (profile : Profile.t) (prediction : Z) (confidence : Q)
    (offers : list Offer.t) (offer : Offer.t) :
  build_offers profile prediction confidence = Ok offers ->
  offer ∈ offers ->
  (35 <= Offer.approval offer <= 98)%Z
  /\ 7.75 <= Offer.rate offer
  /\ (Offer.tag offer = "Best Rate"%string
      \/ Offer.tag offer = "Fast Approval"%string).
Proof.
  intros Hbuild Hin.
  destruct (Z.eq_dec prediction 1%Z) as [-> | Hdenied].
  - apply build_offers_unfold in Hbuild as (banks & items & _ & Hitems & ->).
    rewrite list_sort_perm in Hin.
    destruct (loop_items_elem profile confidence banks items offer Hitems Hin)
      as (bank & _ & Hoffer).
    destruct (bank_offer_fields _ _ _ _ Hoffer) as (Hfit & Htag & _).
    destruct (bank_offer_some _ _ _ _ Hoffer) as (_ & _ & Hrate & _).
    split; [exact Hfit |]. split.
    + rewrite Hrate. apply effective_rate_floor.
    + rewrite Htag. destruct (Qle_bool _ _); auto.
  - rewrite build_offers_short_circuit in Hbuild by exact Hdenied.
    injection Hbuild as <-. inversion Hin.
Qed.

Lemma offer_field_bounds_witness :
  exists offers offer,
    build_offers example_profile 1 95 = Ok offers
    /\ offers !! 1%nat = Some offer
    /\ Offer.bank offer = "HDFC"%string
    /\ (35 <= Offer.approval offer <= 98)%Z
    /\ 7.75 <= Offer.rate offer
    /\ (Offer.tag offer = "Best Rate"%string
        \/ Offer.tag offer = "Fast Approval"%string).
Proof.
  eexists _, _.
  split; [vm_compute; reflexivity |].
  split; [reflexivity |].
  split; [reflexivity |].
  eapply (offer_field_bounds example_profile 1 95).
  - vm_compute. reflexivity.
  - right. left.
Defined.

(** X15. Along a returned list the rates strictly increase, so the first
    offer, the one shown as best offer, has the lowest rate of all. *)
Theorem offers_rates_increasing (profile : Profile.t) (prediction : Z)
    (confidence : Q) (offers : list Offer.t) (i j : nat) (a b : Offer.t) :
  build_offers profile prediction confidence = Ok offers ->
  offers !! i = Some a -> offers !! j = Some b -> (i < j)%nat ->
  Offer.rate a < Offer.rate b.
Proof.
  intros Hbuild Hi Hj Hlt.
  destruct (Z.eq_dec prediction 1%Z) as [-> | Hdenied].
  - pose proof Hbuild as Hunfold.
    apply build_offers_unfold in Hunfold as (banks & items & _ & _ & Hsort).
    assert (Hab : precedes a b).
    { eapply sorted_lookup; [| exact Hi | exact Hj | exact Hlt].
      rewrite Hsort. apply list_sort_sorted. }
    destruct (Qlt_le_dec (Offer.rate a) (Offer.rate b)) as [H | H]; [exact H |].
    exfalso.
    assert (Hrate : Offer.rate a == Offer.rate b).
    { destruct Hab as [H' | [[H' _] | (H' & _)]]; lra. }
    assert (Hname : Offer.bank a = Offer.bank b).
    { eapply build_offers_rates; [exact Hbuild | | | exact Hrate].
      - eapply list_elem_of_lookup_2, Hi.
      - eapply list_elem_of_lookup_2, Hj. }
    assert (i = j); [| lia].
    eapply (NoDup_lookup (Offer.bank <$> offers) i j (Offer.bank a)).
    + eapply build_offers_names, Hbuild.
    + now rewrite list_lookup_fmap, Hi.
    + now rewrite list_lookup_fmap, Hj, Hname.
  - rewrite build_offers_short_circuit in Hbuild by exact Hdenied.
    injection Hbuild as <-. discriminate Hi.
Qed.

Lemma offers_rates_increasing_witness :
  exists offers a b,
    build_offers example_profile 1 95 = Ok offers
    /\ offers !! 0%nat = Some a /\ offers !! 3%nat = Some b
    /\ Offer.rate a < Offer.rate b.
Proof.
  eexists _, _, _.
  split; [vm_compute; reflexivity |].
  split; [reflexivity |].
  split; [reflexivity |].
  eapply (offers_rates_increasing example_profile 1 95 _ 0 3).
  - vm_compute. reflexivity.
  - reflexivity.
  - reflexivity.
  - lia.
Defined.

(** X16. Every offer comes from a lender of the profile's bucket whose
    name it carries; its rate is that lender's base rate plus the three
    adjustments, between 0.55 below and 0.65 above the base rate; and its
    tag is "Best Rate" exactly when the adjustments do not add up to more
    than zero. *)
Theorem offer_rate_band (profile : Profile.t) (confidence : Q)
    (offers : list Offer.t) (offer : Offer.t) :
  build_offers profile 1 confidence = Ok offers ->
  offer ∈ offers ->
  exists banks bank,
    BANKS !! Profile.loan_type profile = Some banks
    /\ bank ∈ banks
    /\ Offer.bank offer = Bank.name bank
    /\ Offer.rate offer
       == Bank.base_rate bank
          + (credit_adjustment profile + foir_adjustment profile
             + stability_adjustment profile)
    /\ Bank.base_rate bank - 0.55 <= Offer.rate offer
    /\ Offer.rate offer <= Bank.base_rate bank + 0.65
    /\ (Offer.tag offer = "Best Rate"%string
        <-> credit_adjustment profile + foir_adjustment profile
            + stability_adjustment profile <= 0).
Proof.
  intros Hbuild Hin.
  apply build_offers_unfold in Hbuild as (banks & items & Hbanks & Hitems & ->).
  rewrite list_sort_perm in Hin.
  destruct (loop_items_elem profile confidence banks items offer Hitems Hin)
    as (bank & Hbank & Hoffer).
  destruct (bank_offer_fields _ _ _ _ Hoffer) as (_ & Htag & _).
  destruct (bank_offer_some _ _ _ _ Hoffer) as (_ & Hname & Hrate & _).
  pose proof (effective_rate_catalog profile _ banks bank Hbanks Hbank) as Hcat.
  pose proof (adjustments_range profile) as [Hlo Hhi].
  exists banks, bank. rewrite Hrate, Htag.
  repeat split; try assumption; try lra.
  - destruct (Qle_bool _ _) eqn:E; [| discriminate].
    intros _. apply Qle_bool_iff in E. lra.
  - intros H. destruct (Qle_bool _ _) eqn:E; [reflexivity |].
    apply Qle_bool_gt in E. lra.
Qed.

Lemma offer_rate_band_witness :
  exists offers offer,
    build_offers example_profile 1 95 = Ok offers
    /\ offers !! 0%nat = Some offer
    /\ exists banks bank,
         BANKS !! Profile.loan_type example_profile = Some banks
         /\ bank ∈ banks
         /\ Offer.bank offer = Bank.name bank
         /\ Offer.rate offer
            == Bank.base_rate bank
               + (credit_adjustment example_profile
                  + foir_adjustment example_profile
                  + stability_adjustment example_profile)
         /\ Bank.base_rate bank - 0.55 <= Offer.rate offer
         /\ Offer.rate offer <= Bank.base_rate bank + 0.65
         /\ (Offer.tag offer = "Best Rate"%string
             <-> credit_adjustment example_profile
                 + foir_adjustment example_profile
                 + stability_adjustment example_profile <= 0).
Proof.
  eexists _, _.
  split; [vm_compute; reflexivity |].
  split; [reflexivity |].
  eapply (offer_rate_band example_profile 95).
  - vm_compute. reflexivity.
  - left.
Defined.

(** X17. A returned list names no bank twice, and its bank names are
    among those of the profile's bucket; it holds at most four offers. *)
Theorem offers_one_per_bank (profile : Profile.t) (confidence : Q)
    (offers : list Offer.t) :
  build_offers profile 1 confidence = Ok offers ->
  NoDup (Offer.bank <$> offers)
  /\ (length offers <= 4)%nat
  /\ exists banks,
       BANKS !! Profile.loan_type profile = Some banks
       /\ (Offer.bank <$> offers) ⊆+ (Bank.name <$> banks).
Proof.
  intros Hbuild.
  split; [eapply build_offers_names, Hbuild |].
  apply build_offers_unfold in Hbuild as (banks & items & Hbanks & Hitems & ->).
  assert (Hsub : (Offer.bank <$> list_sort (omap id items)) ⊆+ (Bank.name <$> banks)).
  { rewrite list_sort_perm. apply sublist_submseteq.
    eapply loop_items_names, Hitems. }
  split; [| exists banks; auto].
  apply submseteq_length in Hsub. rewrite !length_fmap in Hsub.
  assert (length banks <= 4)%nat; [| lia].
  clear -Hbanks. revert Hbanks. generalize (Profile.loan_type profile).
  intros loan_type Hbanks. catalog_cases Hbanks; cbn; lia.
Qed.

Lemma offers_one_per_bank_witness :
  exists offers,
    build_offers example_profile 1 95 = Ok offers
    /\ NoDup (Offer.bank <$> offers)
    /\ (length offers <= 4)%nat
    /\ exists banks,
         BANKS !! Profile.loan_type example_profile = Some banks
         /\ (Offer.bank <$> offers) ⊆+ (Bank.name <$> banks).
Proof.
  eexists. split; [vm_compute; reflexivity |].
  apply (offers_one_per_bank example_profile 95).
  vm_compute. reflexivity.
Defined.

(** X18. When the credit score is below the minimum of every lender of
    the bucket, the list is empty and nothing else of the profile is
    looked at: not even an income of zero raises.  In particular no loan
    type of the catalog has an offer for a credit score below 640. *)
Theorem offers_none_below_min_credit (profile : Profile.t) (prediction : Z)
    (confidence : Q) (banks : list Bank.t) :
  BANKS !! Profile.loan_type profile = Some banks ->
  Forall (fun bank => (Profile.credit_score profile < Bank.min_credit bank)%Z) banks
  \/ (Profile.credit_score profile < 640)%Z ->
  build_offers profile prediction confidence = Ok [].
Proof.
  intros Hbanks Hcredit.
  assert (Hall : Forall (fun bank =>
            (Profile.credit_score profile < Bank.min_credit bank)%Z) banks).
  { destruct Hcredit as [H | H]; [exact H |].
    clear -Hbanks H. revert Hbanks. generalize (Profile.loan_type profile).
    intros loan_type Hbanks.
    catalog_cases Hbanks; repeat constructor; cbn; lia. }
  unfold build_offers. destruct (negb _); [reflexivity |].
  rewrite Hbanks. cbn [bind].
  assert (Hloop : offers_loop profile confidence banks [] = Ok []).
  { clear Hbanks Hcredit. induction Hall as [| bank banks Hbank _ IH]; [reflexivity |].
    cbn [offers_loop]. unfold bank_offer at 1.
    apply Z.ltb_lt in Hbank. rewrite Hbank. cbn [bind]. exact IH. }
  rewrite Hloop. reflexivity.
Qed.

Lemma offers_none_below_min_credit_witness :
  build_offers
    (Profile.mk "Applicant" 35 "salaried" 0 0 0 670 200000 0 "Home" 0 0 1.0) 1 95
  = Ok [].
Proof.
  eapply (offers_none_below_min_credit _ 1 95).
  - vm_compute. reflexivity.
  - left. repeat constructor.
Defined.

(** ** What the offer engine can raise *)

(** With a positive rate [emi] raises for a term of zero months only: for
    a negative term the growth factor is below one. *)
Lemma emi_nonzero_months (principal annual_rate : Q) (months : Z) :
  0 < annual_rate -> months <> 0%Z ->
  exists payment, emi principal annual_rate months = Ok payment.
Proof.
  intros Hr Hm.
  destruct (Z.lt_trichotomy months 0%Z) as [Hneg | [Hzero | Hpos]];
    [| contradiction |].
  - unfold emi.
    assert (Hmr : 0 < annual_rate / 12 / 100) by (rewrite monthly_rate_eq; lra).
    set (r := annual_rate / 12 / 100) in *.
    assert (E1 : Qeq_bool r 0 = false) by (apply Qeq_bool_false; lra).
    rewrite E1. unfold py_pow.
    assert (E2 : Qeq_bool (1 + r) 0 = false) by (apply Qeq_bool_false; lra).
    rewrite E2. cbn [andb bind].
    assert (Hf : (1 + r) ^ months < 1).
    { replace months with (- - months)%Z by lia.
      rewrite Qpower_opp.
      assert (H1 : 1 < (1 + r) ^ (- months)) by (apply Qpower_1_lt; [lra | lia]).
      assert (H2 : / (1 + r) ^ (- months) < / 1).
      { apply -> Qinv_lt_contravar; lra. }
      change (/ 1) with 1 in H2. exact H2. }
    rewrite py_div_ok by lra. eauto.
  - destruct (emi_compound_branch principal annual_rate months) as (_ & _ & ->);
      [exact Hr | lia | eauto].
Qed.

Lemma bank_offer_raises (profile : Profile.t) (confidence : Q) (bank : Bank.t)
    (e : exn) :
  bank_offer profile confidence bank = Raise e ->
  e = ZeroDivisionError
  /\ (Profile.tenure_months profile = 0%Z
      \/ Profile.monthly_income profile == 0).
Proof.
  unfold bank_offer. destruct (_ <? _)%Z; [discriminate |].
  pose proof (effective_rate_floor profile bank) as Hrate.
  destruct (Z.eq_dec (Profile.tenure_months profile) 0%Z) as [Hzero | Hmonths].
  - rewrite Hzero.
    assert (Hemi : emi (Profile.loan_amount profile)
                     (effective_rate profile bank) 0 = Raise ZeroDivisionError).
    { unfold emi. destruct (Qeq_bool _ 0); [reflexivity |].
      unfold py_pow. rewrite andb_false_r. reflexivity. }
    rewrite Hemi. cbn [bind]. intros [= <-]. auto.
  - destruct (emi_nonzero_months (Profile.loan_amount profile)
                (effective_rate profile bank) (Profile.tenure_months profile))
      as [monthly_emi ->]; [lra | exact Hmonths |].
    cbn [bind]. unfold py_div.
    destruct (Qeq_bool (Profile.monthly_income profile) 0) eqn:E.
    + apply Qeq_bool_iff in E. cbn [bind]. intros [= <-]. auto.
    + cbn [bind]. destruct (Qltb _ _); discriminate.
Qed.

Lemma offers_loop_raises (profile : Profile.t) (confidence : Q)
    (banks : list Bank.t) (offers : list Offer.t) (e : exn) :
  offers_loop profile confidence banks offers = Raise e ->
  e = ZeroDivisionError
  /\ (Profile.tenure_months profile = 0%Z
      \/ Profile.monthly_income profile == 0).
Proof.
  revert offers. induction banks as [| bank banks IH]; intros offers;
    [discriminate |].
  cbn [offers_loop].
  destruct (bank_offer profile confidence bank) as [item | e'] eqn:Ebank.
  - cbn [bind]. apply IH.
  - cbn [bind]. intros [= <-]. eapply bank_offer_raises, Ebank.
Qed.

(** X19. [build_offers] raises [KeyError] exactly under a prediction of 1
    for a loan type that is not a key of the catalog, the key of the
    error being that loan type; and it raises [ZeroDivisionError] only
    under a prediction of 1, for a loan type of the catalog, when the
    term is zero months or the income is zero. *)
Theorem build_offers_key_error_zero_division (profile : Profile.t)
    (prediction : Z) (confidence : Q) :
  (forall key : string,
     build_offers profile prediction confidence = Raise (KeyError key)
     <-> prediction = 1%Z
         /\ BANKS !! Profile.loan_type profile = None
         /\ key = Profile.loan_type profile)
  /\ (build_offers profile prediction confidence = Raise ZeroDivisionError ->
      prediction = 1%Z
      /\ is_Some (BANKS !! Profile.loan_type profile)
      /\ (Profile.tenure_months profile = 0%Z
          \/ Profile.monthly_income profile == 0)).
Proof.
  unfold build_offers. split.
  - intros key. split.
    + destruct (Z.eqb_spec prediction 1%Z) as [-> | _]; [| discriminate].
      cbn [negb].
      destruct (BANKS !! Profile.loan_type profile) as [banks |] eqn:Ebanks.
      * cbn [bind].
        destruct (offers_loop profile confidence banks []) as [offers | e] eqn:Eloop;
          [discriminate |].
        cbn [bind]. intros [= ->].
        apply offers_loop_raises in Eloop as [[=] _].
      * cbn [bind]. intros [= <-]. auto.
    + intros (-> & -> & ->). reflexivity.
  - destruct (Z.eqb_spec prediction 1%Z) as [-> | _]; [| discriminate].
    cbn [negb].
    destruct (BANKS !! Profile.loan_type profile) as [banks |] eqn:Ebanks;
      [| discriminate].
    cbn [bind].
    destruct (offers_loop profile confidence banks []) as [offers | e] eqn:Eloop;
      [discriminate |].
    intros _. apply offers_loop_raises in Eloop as [_ Hwhy]. eauto.
Qed.

(** A loan type outside the catalog, and a term of zero months. *)
Example build_offers_raises_samples :
  build_offers stray_profile 1 50 = Raise (KeyError "Gold")
  /\ build_offers stray_profile 0 50 = Ok []
  /\ build_offers
       (Profile.mk "Applicant" 35 "salaried" 80000 20000 5000 780 200000 0
          "Home" 55000 0.3 1.0) 1 50
     = Raise ZeroDivisionError.
Proof. repeat split; vm_compute; reflexivity. Qed.

(** ** The confidence changes the approval fit and nothing else *)









(** ** The view as a whole *)

Lemma py_round_bounds (x : Q) (lo hi : Z) :
  inject_Z lo <= x -> x <= inject_Z hi -> (lo <= py_round x <= hi)%Z.
Proof.
  intros Hlo Hhi.
  pose proof (Qfloor_le x) as Hfloor. pose proof (Qlt_floor x) as Hceil.
  rewrite inject_Z_plus in Hceil. change (inject_Z 1) with 1 in Hceil.
  assert (H1 : (lo <= Qfloor x)%Z).
  { apply Qfloor_resp_le in Hlo. now rewrite Qfloor_Z in Hlo. }
  assert (H2 : (Qfloor x <= hi)%Z).
  { rewrite Zle_Qle. lra. }
  unfold py_round.
  destruct (Z.eq_dec (Qfloor x) hi) as [E | E].
  - assert (Hx : x == inject_Z (Qfloor x)) by (rewrite E in *; lra).
    assert (Ed : Qltb (x - inject_Z (Qfloor x)) (1 # 2) = true)
      by (apply Qltb_lt; lra).
    rewrite Ed. lia.
  - repeat qcase; try destruct (Z.even _); lia.
Qed.

Lemma py_round_above_half (x : Q) (n : Z) :
  inject_Z n - (1 # 2) < x -> (n <= py_round x)%Z.
Proof.
  intros H.
  pose proof (Qfloor_le x) as Hfloor. pose proof (Qlt_floor x) as Hceil.
  rewrite inject_Z_plus in Hceil. change (inject_Z 1) with 1 in Hceil.
  assert (Hn : (n <= Qfloor x + 1)%Z).
  { apply Z.lt_succ_r. rewrite Zlt_Qlt. unfold Z.succ.
    rewrite !inject_Z_plus. change (inject_Z 1) with 1. lra. }
  unfold py_round.
  destruct (Z.eq_dec n (Qfloor x + 1)%Z) as [E | E].
  - assert (Ed : Qltb (x - inject_Z (Qfloor x)) (1 # 2) = false).
    { apply Qltb_ge. rewrite E, inject_Z_plus in H.
      change (inject_Z 1) with 1 in H. lra. }
    rewrite Ed. repeat qcase; try destruct (Z.even _); try lia.
    exfalso. rewrite E, inject_Z_plus in H. change (inject_Z 1) with 1 in H. lra.
  - repeat qcase; try destruct (Z.even _); lia.
Qed.

(** With a positive principal and rate the payment is positive. *)
(** X22. A rendered decision is in one of three states: "APPROVED" with
    a prediction of 1 and at least one offer, the first of which is the
    best offer; "CONDITIONAL" with a prediction of 1 and no offer; or
    "REJECTED" with another prediction and no offer.  In the last two
    there is no best offer. *)
Theorem decision_status (model : Model) (form : Form.t) (decision : Decision.t) :
  dashboard model form = Render decision ->
  let prediction :=
    predict model (Form.monthly_income form, Form.loan_amount form,
                   inject_Z (Form.credit_score form)) in
  (Decision.status decision = "APPROVED"%string
   /\ prediction = 1%Z
   /\ exists best rest,
        Decision.offers decision = best :: rest
        /\ Decision.best_offer decision = Some best)
  \/ (Decision.status decision = "CONDITIONAL"%string
      /\ prediction = 1%Z
      /\ Decision.offers decision = []
      /\ Decision.best_offer decision = None)
  \/ (Decision.status decision = "REJECTED"%string
      /\ prediction <> 1%Z
      /\ Decision.offers decision = []
      /\ Decision.best_offer decision = None).
Proof.
  intros Hrender.
  apply dashboard_render_inv in Hrender as [_ Heval].
  apply evaluate_inv in Heval
    as (baseline_emi & _ & _ & _ & _ & _ & Hbuild & Hstatus & Hbest & _).
  cbv zeta in *. rewrite Hstatus, Hbest.
  destruct (Z.eqb_spec (predict model (Form.monthly_income form,
              Form.loan_amount form, inject_Z (Form.credit_score form))) 1)
    as [Epred | Epred].
  - destruct (Decision.offers decision) as [| best rest].
    + right. left. repeat split. exact Epred.
    + left. split; [reflexivity |]. split; [exact Epred |]. eauto.
  - right. right.
    rewrite build_offers_short_circuit in Hbuild by exact Epred.
    injection Hbuild as <-. repeat split. exact Epred.
Qed.

Lemma decision_status_witness :
  let prediction :=
    predict FallbackModel.model
      (Form.monthly_income example_form, Form.loan_amount example_form,
       inject_Z (Form.credit_score example_form)) in
  exists decision,
    dashboard FallbackModel.model example_form = Render decision
    /\ ((Decision.status decision = "APPROVED"%string
         /\ prediction = 1%Z
         /\ exists best rest,
              Decision.offers decision = best :: rest
              /\ Decision.best_offer decision = Some best)
        \/ (Decision.status decision = "CONDITIONAL"%string
            /\ prediction = 1%Z
            /\ Decision.offers decision = []
            /\ Decision.best_offer decision = None)
        \/ (Decision.status decision = "REJECTED"%string
            /\ prediction <> 1%Z
            /\ Decision.offers decision = []
            /\ Decision.best_offer decision = None)).
Proof.
  cbv zeta. eexists. split; [vm_compute; reflexivity |].
  apply (decision_status FallbackModel.model example_form).
  vm_compute. reflexivity.
Defined.

(** X23. The profile of a rendered decision repeats the form's income,
    existing EMI, credit score, loan amount, term and loan type, and its
    stability coefficient is the entry of the employment in the table, or
    the default 0.8, hence one of 1.0, 0.85, 0.75 and 0.8. *)
Theorem decision_profile_fields (model : Model) (form : Form.t)
    (decision : Decision.t) :
  dashboard model form = Render decision ->
  let profile := Decision.profile decision in
  Profile.monthly_income profile = Form.monthly_income form
  /\ Profile.existing_emi profile = Form.existing_emi form
  /\ Profile.credit_score profile = Form.credit_score form
  /\ Profile.loan_amount profile = Form.loan_amount form
  /\ Profile.tenure_months profile = Form.tenure_months form
  /\ Profile.loan_type profile = Form.loan_type form
  /\ Profile.stability profile
     = default 0.8 (EMPLOYMENT_STABILITY !! Form.employment form)
  /\ Profile.stability profile ∈ [1.0; 0.85; 0.75; 0.8].
Proof.
  intros Hrender.
  apply dashboard_render_inv in Hrender as [_ Heval].
  apply evaluate_inv in Heval as (baseline_emi & _ & _ & Hprofile & _).
  cbv zeta in *. rewrite Hprofile.
  cbn [Profile.monthly_income Profile.existing_emi Profile.credit_score
       Profile.loan_amount Profile.tenure_months Profile.loan_type
       Profile.stability].
  repeat split.
  unfold EMPLOYMENT_STABILITY. cbn [list_to_map foldr uncurry fst snd].
  destruct (decide (Form.employment form = "salaried"%string)) as [-> | N1].
  { rewrite lookup_insert_eq. cbn. repeat constructor. }
  rewrite lookup_insert_ne by congruence.
  destruct (decide (Form.employment form = "self_employed"%string)) as [-> | N2].
  { rewrite lookup_insert_eq. cbn. repeat constructor. }
  rewrite lookup_insert_ne by congruence.
  destruct (decide (Form.employment form = "freelancer"%string)) as [-> | N3].
  { rewrite lookup_insert_eq. cbn. repeat constructor. }
  rewrite lookup_insert_ne by congruence.
  rewrite lookup_empty. cbn. repeat constructor.
Qed.

Lemma decision_profile_fields_witness :
  exists decision,
    dashboard FallbackModel.model student_form = Render decision
    /\ let profile := Decision.profile decision in
       Profile.monthly_income profile = Form.monthly_income student_form
       /\ Profile.existing_emi profile = Form.existing_emi student_form
       /\ Profile.credit_score profile = Form.credit_score student_form
       /\ Profile.loan_amount profile = Form.loan_amount student_form
       /\ Profile.tenure_months profile = Form.tenure_months student_form
       /\ Profile.loan_type profile = Form.loan_type student_form
       /\ Profile.stability profile
          = default 0.8 (EMPLOYMENT_STABILITY !! Form.employment student_form)
       /\ Profile.stability profile ∈ [1.0; 0.85; 0.75; 0.8].
Proof.
  eexists. split; [vm_compute; reflexivity |].
  apply (decision_profile_fields FallbackModel.model student_form).
  vm_compute. reflexivity.
Defined.

(** ** The view with the fallback model *)

Lemma explain_no_moderate_caution (data : Profile.t) (decision_confidence : Z)
    (risk_label : string) :
  (55 <= decision_confidence)%Z ->
  "Eligibility confidence is moderate; terms may vary by lender."%string
  ∉ snd (explain_profile data decision_confidence risk_label).
Proof.
  intros H. apply Z.ltb_ge in H. unfold explain_profile. rewrite H.
  destruct (740 <=? Profile.credit_score data)%Z;
    [| destruct (Profile.credit_score data <? 670)%Z];
    (destruct (Qle_bool (Profile.foir data) 0.4);
       [| destruct (Qltb 0.55 (Profile.foir data))]);
    destruct (Qle_bool (0.35 * Profile.monthly_income data)
                (Profile.disposable_income data));
    destruct (String.eqb risk_label "High");
    cbn [app andb bool_decide decide_rel fst snd];
    intros Hin;
    repeat (apply elem_of_cons in Hin as [Hin | Hin]; [discriminate Hin |]);
    inversion Hin.
Qed.

(** X24. With the fallback model the confidence of a rendered decision
    lies between 22 and 95; the decision is "REJECTED" exactly when the
    income is below a hundred-and-twentieth of the loan amount or the
    credit score below 650; and every other decision has a confidence of
    at least 64, so that it never carries the caution about a moderate
    eligibility confidence. *)
Theorem fallback_decision_confidence (form : Form.t) (decision : Decision.t) :
  dashboard FallbackModel.model form = Render decision ->
  (22 <= Decision.confidence decision <= 95)%Z
  /\ (Decision.status decision = "REJECTED"%string
      <-> ~ (Form.loan_amount form / 120 <= Form.monthly_income form
             /\ (650 <= Form.credit_score form)%Z))
  /\ (Decision.status decision <> "REJECTED"%string ->
      (64 <= Decision.confidence decision)%Z
      /\ "Eligibility confidence is moderate; terms may vary by lender."%string
         ∉ Decision.cautions decision).
Proof.
  intros Hrender.
  apply dashboard_render_inv in Hrender as [_ Heval].
  apply evaluate_inv in Heval
    as (baseline_emi & _ & _ & _ & Hconf & _ & _ & Hstatus & _ & Hexplain).
  cbv zeta in *. cbn [predict predict_proba FallbackModel.model] in *.
  set (X := (Form.monthly_income form, Form.loan_amount form,
             inject_Z (Form.credit_score form))) in *.
  assert (Hrange : (22 <= Decision.confidence decision <= 95)%Z).
  { rewrite Hconf.
    destruct (fallback_proba_floor_aux X) as [Hlo Hhi].
    apply py_round_bounds.
    - change (inject_Z 22) with 22. lra.
    - change (inject_Z 95) with 95. lra. }
  assert (Hpred : FallbackModel.predict X = 1%Z
                  <-> Form.loan_amount form / 120 <= Form.monthly_income form
                      /\ (650 <= Form.credit_score form)%Z).
  { unfold FallbackModel.predict, X.
    destruct (Qle_bool (Form.loan_amount form / 120) (Form.monthly_income form))
      eqn:E1;
      destruct (Qle_bool 650 (inject_Z (Form.credit_score form))) eqn:E2;
      cbn [andb].
    - apply Qle_bool_iff in E1, E2. change 650 with (inject_Z 650) in E2.
      rewrite <- Zle_Qle in E2. tauto.
    - apply Qle_bool_gt in E2. change 650 with (inject_Z 650) in E2.
      rewrite <- Zlt_Qlt in E2. split; [discriminate | intros [_ H]; lia].
    - apply Qle_bool_gt in E1. split; [discriminate | intros [H _]; lra].
    - apply Qle_bool_gt in E1. split; [discriminate | intros [H _]; lra]. }
  assert (Hrejected : Decision.status decision = "REJECTED"%string
                      <-> FallbackModel.predict X <> 1%Z).
  { rewrite Hstatus.
    destruct (Z.eqb_spec (FallbackModel.predict X) 1) as [E | E]; cbn [andb].
    - destruct (negb _); split; try discriminate; intros H; contradiction.
    - split; [intros _; exact E | reflexivity]. }
  split; [exact Hrange |]. split; [now rewrite Hrejected, Hpred |].
  intros Hnot.
  assert (Happroved : FallbackModel.predict X = 1%Z).
  { destruct (Z.eq_dec (FallbackModel.predict X) 1%Z) as [E | E]; [exact E |].
    exfalso. apply Hnot, Hrejected, E. }
  assert (H64 : (64 <= Decision.confidence decision)%Z).
  { rewrite Hconf. apply py_round_above_half.
    pose proof (fallback_approval_floor_aux X Happroved) as Hfloor.
    change (inject_Z 64) with 64. lra. }
  split; [exact H64 |].
  replace (Decision.cautions decision)
    with (snd (explain_profile (Decision.profile decision)
                 (Decision.confidence decision) (Decision.risk_label decision)))
    by (rewrite <- Hconf in Hexplain; now rewrite <- Hexplain).
  apply explain_no_moderate_caution. lia.
Qed.

Lemma fallback_decision_confidence_witness :
  exists decision,
    dashboard FallbackModel.model example_form = Render decision
    /\ (22 <= Decision.confidence decision <= 95)%Z
    /\ (Decision.status decision = "REJECTED"%string
        <-> ~ (Form.loan_amount example_form / 120
               <= Form.monthly_income example_form
               /\ (650 <= Form.credit_score example_form)%Z))
    /\ (Decision.status decision <> "REJECTED"%string ->
        (64 <= Decision.confidence decision)%Z
        /\ "Eligibility confidence is moderate; terms may vary by lender."%string
           ∉ Decision.cautions decision).
Proof.
  eexists. split; [vm_compute; reflexivity |].
  apply (fallback_decision_confidence example_form).
  vm_compute. reflexivity.
Defined.

Lemma profile_risk_low_inv (credit_score : Z) (foir stability : Q) :
  fst (profile_risk credit_score foir stability) = "Low"%string ->
  (760 <= credit_score)%Z /\ foir <= 0.35 /\ 0.95 <= stability
  /\ snd (profile_risk credit_score foir stability) = 28%Z.
Proof.
  destruct (profile_risk_unfold credit_score foir stability) as [Hscore Hlabel].
  cbv zeta in *. rewrite Hlabel, Hscore. clear Hscore Hlabel.
  destruct (risk_credit_delta_cases credit_score)
    as [[Hc ->] | [[Hc ->] | [[Hc ->] | [Hc ->]]]];
    destruct (risk_foir_delta_cases foir)
      as [[Hf ->] | [(Hf & Hf' & ->) | [(Hf & Hf' & ->) | [Hf ->]]]];
    destruct (risk_stability_delta_cases stability)
      as [[Hs ->] | [(Hs & Hs' & ->) | [Hs ->]]];
    eval_label; first [discriminate | auto].
Qed.

Lemma stability_high_salaried (employment : string) :
  0.95 <= default 0.8 (EMPLOYMENT_STABILITY !! employment) ->
  employment = "salaried"%string.
Proof.
  unfold EMPLOYMENT_STABILITY. cbn [list_to_map foldr uncurry fst snd].
  destruct (decide (employment = "salaried"%string)) as [-> | N1]; [reflexivity |].
  rewrite lookup_insert_ne by congruence.
  destruct (decide (employment = "self_employed"%string)) as [-> | N2].
  { rewrite lookup_insert_eq. cbn. intros H. exfalso. lra. }
  rewrite lookup_insert_ne by congruence.
  destruct (decide (employment = "freelancer"%string)) as [-> | N3].
  { rewrite lookup_insert_eq. cbn. intros H. exfalso. lra. }
  rewrite lookup_insert_ne by congruence.
  rewrite lookup_empty. cbn. intros H. exfalso. lra.
Qed.

(** X25. A rendered decision carries the risk label "Low" only for a
    salaried applicant with a credit score of 760 or more whose FOIR, at
    the baseline rate of 10 percent, is at most 0.35; its risk score is
    then 28. *)
Theorem decision_low_risk (model : Model) (form : Form.t) (decision : Decision.t) :
  dashboard model form = Render decision ->
  Decision.risk_label decision = "Low"%string ->
  Form.employment form = "salaried"%string
  /\ (760 <= Form.credit_score form)%Z
  /\ Profile.foir (Decision.profile decision) <= 0.35
  /\ Decision.risk_score decision = 28%Z.
Proof.
  intros Hrender Hlow.
  apply dashboard_render_inv in Hrender as [_ Heval].
  apply evaluate_inv in Heval as (baseline_emi & _ & _ & Hprofile & _ & Hrisk & _).
  cbv zeta in *. rewrite Hprofile. cbn [Profile.foir].
  assert (Hlabel : Decision.risk_label decision
                   = fst (profile_risk (Form.credit_score form)
                            ((Form.existing_emi form + baseline_emi)
                             / Form.monthly_income form)
                            (default 0.8
                               (EMPLOYMENT_STABILITY !! Form.employment form))))
    by now rewrite <- Hrisk.
  assert (Hscore : Decision.risk_score decision
                   = snd (profile_risk (Form.credit_score form)
                            ((Form.existing_emi form + baseline_emi)
                             / Form.monthly_income form)
                            (default 0.8
                               (EMPLOYMENT_STABILITY !! Form.employment form))))
    by now rewrite <- Hrisk.
  rewrite Hlabel in Hlow.
  apply profile_risk_low_inv in Hlow as (Hc & Hf & Hs & H28).
  repeat split; try assumption.
  - now apply stability_high_salaried.
  - now rewrite Hscore.
Qed.

Lemma decision_low_risk_witness :
  exists decision,
    dashboard FallbackModel.model example_form = Render decision
    /\ Form.employment example_form = "salaried"%string
    /\ (760 <= Form.credit_score example_form)%Z
    /\ Profile.foir (Decision.profile decision) <= 0.35
    /\ Decision.risk_score decision = 28%Z.
Proof.
  eexists. split; [vm_compute; reflexivity |].
  apply (decision_low_risk FallbackModel.model example_form).
  - vm_compute. reflexivity.
  - reflexivity.
Defined.

(** ** Sessions *)

Lemma login_required_spec (session : Session) :
  login_required session = true <-> is_Some (session !! "username"%string).
Proof. unfold login_required. apply bool_decide_eq_true. Qed.

(** X26. After [logout] the session is empty: whatever it held before,
    nobody is logged in, and every request to the dashboard, GET or POST,
    is redirected to the login page. *)
Theorem logout_locks_dashboard :
  forall (session : Session) (request : Request.t),
    login_required (fst (logout session)) = false
    /\ dashboard_guard (fst (logout session)) request = Answer (Redirect "login")
    /\ snd (logout session) = Redirect "login".
Proof.
  intros session request. cbn [logout fst snd].
  assert (E : login_required ∅ = false).
  { unfold login_required. apply bool_decide_eq_false.
    rewrite lookup_empty. apply is_Some_None. }
  unfold dashboard_guard. rewrite E. repeat split.
Qed.

(** X27. [login] changes the session in one case only: nobody is logged
    in, the request is a POST, the stripped and lower-cased user name is a
    key of [USERS] and the password passes the check against that user's
    hash.  The session then gains that user name and the user's display
    name, and somebody is logged in.  In every other case the session is
    returned as it was. *)
Theorem login_session :
  forall (lib : Library) (session : Session) (request : Request.t),
    let '(session', flashed, response) := login lib session request in
    let username :=
      str_lower lib
        (str_strip lib
           (default ""%string (Request.form request !! "username"%string))) in
    let password := default ""%string (Request.form request !! "password"%string) in
    (session' = session
     /\ (login_required session = true \/ response = Template "login.html"))
    \/ (exists user,
          login_required session = false
          /\ Request.method request = "POST"%string
          /\ USERS lib !! username = Some user
          /\ (username = "admin"%string \/ username = "analyst"%string)
          /\ check_password_hash lib (User.password user) password = true
          /\ session' !! "username"%string = Some username
          /\ session' !! "name"%string = Some (User.name user)
          /\ login_required session' = true
          /\ flashed = []
          /\ response = Redirect "dashboard").
Proof.
  intros lib session request. unfold login.
  destruct (login_required session) eqn:Elogged; [left; auto |].
  destruct (String.eqb_spec (Request.method request) "POST") as [Emethod | _];
    [| left; auto].
  set (username := str_lower lib _).
  destruct (USERS lib !! username) as [user |] eqn:Euser; [| left; auto].
  destruct (check_password_hash lib (User.password user) _) eqn:Echeck;
    [| left; auto].
  right. exists user. repeat split; try assumption.
  - apply elem_of_list_to_map_2 in Euser.
    apply elem_of_cons in Euser as [[= -> _] | Euser]; [now left |].
    apply elem_of_cons in Euser as [[= -> _] | Euser]; [now right |].
    inversion Euser.
  - rewrite lookup_insert_ne by discriminate. apply lookup_insert_eq.
  - apply lookup_insert_eq.
  - apply login_required_spec.
    rewrite lookup_insert_ne by discriminate. rewrite lookup_insert_eq. eauto.
Qed.

(** X28. Somebody who is logged in stays so through [login]: the view
    redirects to the dashboard without reading the request, flashing
    nothing and leaving the session as it is; and a GET of the dashboard
    shows the name stored in the session, or "User" when there is none. *)
Theorem logged_in_pages (lib : Library) (session : Session) (request : Request.t) :
  login_required session = true ->
  login lib session request = (session, [], Redirect "dashboard")
  /\ (Request.method request <> "POST"%string ->
      dashboard_guard session request
      = Answer (DashboardPage (default "User"%string (session !! "name"%string))))
  /\ (Request.method request = "POST"%string ->
      dashboard_guard session request = HandlePost).
Proof.
  intros Hlogged. unfold login, dashboard_guard. rewrite Hlogged. cbn [negb].
  split; [reflexivity |].
  destruct (String.eqb_spec (Request.method request) "POST") as [E | E];
    split; intros H; first [reflexivity | contradiction].
Qed.

Lemma logged_in_pages_witness :
  login demo_library {["username"%string := "admin"%string]}
    (Request.mk "GET" ∅)
  = ({["username"%string := "admin"%string]}, [], Redirect "dashboard")
  /\ (Request.method (Request.mk "GET" ∅) <> "POST"%string ->
      dashboard_guard {["username"%string := "admin"%string]} (Request.mk "GET" ∅)
      = Answer (DashboardPage
                  (default "User"%string
                     (({["username"%string := "admin"%string]} : Session)
                      !! "name"%string))))
  /\ (Request.method (Request.mk "GET" ∅) = "POST"%string ->
      dashboard_guard {["username"%string := "admin"%string]} (Request.mk "GET" ∅)
      = HandlePost).
Proof.
  apply (logged_in_pages demo_library {["username"%string := "admin"%string]}
           (Request.mk "GET" ∅)).
  vm_compute. reflexivity.
Defined.

(** A login with the stand-in library, then the dashboard, then a
    logout. *)
Example login_then_dashboard :
  let request :=
    Request.mk "POST"
      (<["password"%string := "smartloan360"%string]>
         {["username"%string := "admin"%string]}) in
  let '(session, flashed, response) := login demo_library ∅ request in
  response = Redirect "dashboard"
  /\ dashboard_guard session (Request.mk "GET" ∅)
     = Answer (DashboardPage "Platform Admin")
  /\ dashboard_guard (fst (logout session)) (Request.mk "GET" ∅)
     = Answer (Redirect "login").
Proof. vm_compute. repeat split. Qed.
